(** * A shallow embedding of [src/mackay_registrar.py]

    The registrar classifies the HTML answer of the hospital's registration
    form ([parse_result]), keeps a cooldown state in [mackay_state.json]
    ([load_state], [save_state], [should_skip_check]) and drives the attempts
    ([batch_registration]) from [main].

    Modelling choices.
    - Python [str] values are lists of Unicode code points ([ustr]); literals
      are written in UTF-8 and decoded by [u8], so [in], [replace], [strip] and
      slicing count code points as Python does.
    - The document produced by BeautifulSoup is a list of [node]s (text nodes
      and elements with their tag, [id], [class] list and children).
    - The file system is a predicate [writable] on file names: [open(.., 'w')]
      raises exactly on the files it rejects.
    - [datetime.fromisoformat], [datetime.isoformat] and
      [extract_details_from_page] are section variables of the classifier
      and the run: the theorems stated over them hold for all of them.
      [extract_details_from_page] is also embedded on its own (its regular
      expressions written out as matchers, [\d] left as a parameter), and
      the properties of the extraction are stated about that embedding. *)

From Stdlib Require Import List ZArith String Ascii Bool Lia.
Import ListNotations.
Open Scope Z_scope.

(** ** Python strings *)

Definition ustr := list Z.

Definition byte_of (c : ascii) : Z := Z.of_nat (nat_of_ascii c).

(** UTF-8 decoding of a source literal into code points. *)
Fixpoint u8 (s : string) : ustr :=
  match s with
  | EmptyString => []
  | String c r =>
      let b := byte_of c in
      if b <? 128 then b :: u8 r
      else if b <? 224 then
        match r with
        | String c1 r1 =>
            (Z.lor (Z.shiftl (b - 192) 6) (byte_of c1 - 128)) :: u8 r1
        | EmptyString => []
        end
      else if b <? 240 then
        match r with
        | String c1 (String c2 r2) =>
            (Z.lor (Z.shiftl (b - 224) 12)
               (Z.lor (Z.shiftl (byte_of c1 - 128) 6) (byte_of c2 - 128)))
              :: u8 r2
        | _ => []
        end
      else
        match r with
        | String c1 (String c2 (String c3 r3)) =>
            (Z.lor (Z.shiftl (b - 240) 18)
               (Z.lor (Z.shiftl (byte_of c1 - 128) 12)
                  (Z.lor (Z.shiftl (byte_of c2 - 128) 6) (byte_of c3 - 128))))
              :: u8 r3
        | _ => []
        end
  end.

(** [str.isspace] on one code point. *)
Definition is_space (c : Z) : bool :=
  ((9 <=? c) && (c <=? 13)) || ((28 <=? c) && (c <=? 32)) ||
  (c =? 133) || (c =? 160) || (c =? 5760) ||
  ((8192 <=? c) && (c <=? 8202)) || (c =? 8232) || (c =? 8233) ||
  (c =? 8239) || (c =? 8287) || (c =? 12288).

Fixpoint lstrip (s : ustr) : ustr :=
  match s with
  | [] => []
  | c :: r => if is_space c then lstrip r else s
  end.

(** [str.strip()] *)
Definition strip (s : ustr) : ustr := rev (lstrip (rev (lstrip s))).

Fixpoint prefixb (p s : ustr) : bool :=
  match p, s with
  | [], _ => true
  | x :: p', y :: s' => (x =? y) && prefixb p' s'
  | _ :: _, [] => false
  end.

(** Python's [needle in hay] on strings. *)
Fixpoint contains (needle hay : ustr) : bool :=
  prefixb needle hay ||
  match hay with
  | [] => false
  | _ :: hay' => contains needle hay'
  end.

Fixpoint replace_fuel (fuel : nat) (old new s : ustr) : ustr :=
  match fuel with
  | O => s
  | S f =>
      match s with
      | [] => []
      | c :: s' =>
          if prefixb old s then new ++ replace_fuel f old new (skipn (List.length old) s)
          else c :: replace_fuel f old new s'
      end
  end.

(** [s.replace(old, new)] for a non-empty [old] (the only kind the source
    uses): each step consumes at least one code point, so [length s] steps
    suffice. *)
Definition replace (old new s : ustr) : ustr :=
  replace_fuel (List.length s) old new s.

(** [sep.join(xs)] *)
Fixpoint join (sep : ustr) (xs : list ustr) : ustr :=
  match xs with
  | [] => []
  | [x] => x
  | x :: r => x ++ sep ++ join sep r
  end.

Definition ustr_eqb (a b : ustr) : bool := prefixb a b && prefixb b a.

(** ** The parsed document *)

Set Warnings "-register-all".

Inductive node : Type :=
| Text (s : ustr)
| Elem (tag : ustr) (id : option ustr) (cls : list ustr) (kids : list node).

Definition document := list node.

(** The strings of a subtree, in document order. *)
Fixpoint strings (n : node) : list ustr :=
  match n with
  | Text s => [s]
  | Elem _ _ _ ks =>
      (fix go (ks : list node) : list ustr :=
         match ks with
         | [] => []
         | k :: r => strings k ++ go r
         end) ks
  end.

(** The elements of a subtree (itself included), in document order. *)
Fixpoint elems (n : node) : list node :=
  match n with
  | Text _ => []
  | Elem _ _ _ ks =>
      n :: (fix go (ks : list node) : list node :=
              match ks with
              | [] => []
              | k :: r => elems k ++ go r
              end) ks
  end.

(** [tag.get_text()] *)
Definition get_text (n : node) : ustr := List.concat (strings n).

(** [tag.get_text(strip=True)]: every string stripped, empty ones dropped. *)
Definition get_text_strip (n : node) : ustr :=
  List.concat (filter (fun s => negb (ustr_eqb s [])) (map strip (strings n))).

(** [soup.get_text()] *)
Definition soup_text (d : document) : ustr := List.concat (flat_map strings d).

Definition descendants (n : node) : list node :=
  match n with
  | Text _ => []
  | Elem _ _ _ ks => flat_map elems ks
  end.

Definition soup_elems (d : document) : list node := flat_map elems d.

Definition has_tag (t : ustr) (n : node) : bool :=
  match n with
  | Elem t' _ _ _ => ustr_eqb t t'
  | Text _ => false
  end.

(** [tag.find_all(t)] *)
Definition find_all (t : string) (n : node) : list node :=
  filter (has_tag (u8 t)) (descendants n).

(** ** Result dictionaries

    The dictionaries built by [parse_result] and [make_appointment]; a field is
    [None] when the key is absent. *)

Record result : Type := mkResult {
  r_success : option bool;
  r_full : option bool;
  r_error : option ustr;
  r_status : option ustr;
  r_appointment_date : option ustr;
  r_department : option ustr;
  r_doctor : option ustr
}.

Definition empty_result : result :=
  mkResult None None None None None None None.

Definition set_success (b : bool) (r : result) : result :=
  mkResult (Some b) (r_full r) (r_error r) (r_status r)
    (r_appointment_date r) (r_department r) (r_doctor r).
Definition set_full (b : bool) (r : result) : result :=
  mkResult (r_success r) (Some b) (r_error r) (r_status r)
    (r_appointment_date r) (r_department r) (r_doctor r).
Definition set_status (s : ustr) (r : result) : result :=
  mkResult (r_success r) (r_full r) (r_error r) (Some s)
    (r_appointment_date r) (r_department r) (r_doctor r).
Definition set_appointment_date (s : ustr) (r : result) : result :=
  mkResult (r_success r) (r_full r) (r_error r) (r_status r)
    (Some s) (r_department r) (r_doctor r).
Definition set_department (s : ustr) (r : result) : result :=
  mkResult (r_success r) (r_full r) (r_error r) (r_status r)
    (r_appointment_date r) (Some s) (r_doctor r).
Definition set_doctor (s : ustr) (r : result) : result :=
  mkResult (r_success r) (r_full r) (r_error r) (r_status r)
    (r_appointment_date r) (r_department r) (Some s).

(** [{'success': False, 'error': msg}] *)
Definition error_result (msg : ustr) : result :=
  mkResult (Some false) None (Some msg) None None None None.

(** Python truthiness of [result.get('success')] and [result.get('full')]. *)
Definition truthy (o : option bool) : bool :=
  match o with Some true => true | _ => false end.

(** ** [parse_result] *)

Definition success_keywords : list ustr :=
  map u8 ["掛號成功"; "預約成功"; "掛號完成"; "已掛號"; "成功掛號"]%string.
Definition full_keywords : list ustr :=
  map u8 ["滿號"; "請改掛"; "已額滿"; "額滿"; "已掛滿"]%string.
Definition error_keywords : list ustr :=
  map u8 ["驗證碼錯誤"; "身份證錯誤"; "生日錯誤"; "資料錯誤"]%string.

Definition any_in (kws : list ustr) (text : ustr) : bool :=
  existsb (fun k => contains k text) kws.

(** The first keyword of the list found in the text ([for ...: if ... in]). *)
Definition first_in (kws : list ustr) (text : ustr) : option ustr :=
  find (fun k => contains k text) kws.

(** The shared status test of the [myprint] and table rules. *)
Definition classify_status (r : result) : result :=
  match r_status r with
  | Some s =>
      if contains (u8 "滿號") s || contains (u8 "請改掛") s then
        set_full true (set_success false r)
      else if contains (u8 "成功") s || contains (u8 "已掛號") s then
        set_full false (set_success true r)
      else set_full false (set_success false r)
  | None => r
  end.

(** Rule 4: the [li] items of [div#myprint]. *)
Definition myprint_item (r : result) (item : node) : result :=
  let text := get_text_strip item in
  if contains (u8 "看診日期：") text then
    set_appointment_date (strip (replace (u8 "看診日期：") [] text)) r
  else if contains (u8 "看診科別：") text then
    set_department (strip (replace (u8 "看診科別：") [] text)) r
  else if contains (u8 "看診醫師：") text then
    set_doctor (strip (replace (u8 "看診醫師：") [] text)) r
  else if contains (u8 "掛號結果：") text then
    set_status (strip (replace (u8 "掛號結果：") [] text)) r
  else r.

Definition myprint_fields (box : node) : result :=
  fold_left myprint_item (find_all "li" box) empty_result.

Definition is_myprint (n : node) : bool :=
  match n with
  | Elem t (Some i) _ _ => ustr_eqb t (u8 "div") && ustr_eqb i (u8 "myprint")
  | _ => false
  end.

(** [soup.find('div', {'id': 'myprint'})] *)
Definition find_myprint (d : document) : option node :=
  find is_myprint (soup_elems d).

(** Rule 5: the rows of a table. *)
Definition table_row (r : result) (row : node) : result :=
  match find_all "td" row with
  | c0 :: c1 :: _ =>
      let key := get_text_strip c0 in
      let value := get_text_strip c1 in
      if contains (u8 "日期") key then set_appointment_date value r
      else if contains (u8 "科別") key then set_department value r
      else if contains (u8 "醫師") key then set_doctor value r
      else if contains (u8 "結果") key then set_status value r
      else r
  | _ => r
  end.

Definition table_fields (table : node) : result :=
  fold_left table_row (find_all "tr" table) empty_result.

Fixpoint table_rule (tables : list node) : option result :=
  match tables with
  | [] => None
  | t :: rest =>
      let tt := get_text_strip t in
      if contains (u8 "掛號結果") tt || contains (u8 "看診日期") tt then
        let r := table_fields t in
        match r_status r with
        | Some _ => Some (classify_status r)
        | None => table_rule rest
        end
      else table_rule rest
  end.

(** Rule 6: [find_all(['div','p','span'], class_=['error','alert','warning'])]. *)
Definition is_error_markup (n : node) : bool :=
  match n with
  | Elem t _ cls _ =>
      existsb (ustr_eqb t) (map u8 ["div"; "p"; "span"]%string) &&
      existsb (fun c => existsb (ustr_eqb c) (map u8 ["error"; "alert"; "warning"]%string)) cls
  | Text _ => false
  end.

(** Rule 7: the text excerpt of the fallback. *)
Definition text_preview (page_text : ustr) : ustr :=
  (* [page_text.replace('\n', ' ').replace('\r', '').strip()[:500]] *)
  firstn 500 (strip (replace [13] [] (replace [10] [32] page_text))).

(** ** Exceptions and the file system *)

(** The only exception of the model: [open(fname, 'w')] refused. *)
Inductive exn : Type :=
| OSError (fname : ustr).

(** [str(e)] *)
Definition exn_str (e : exn) : ustr :=
  match e with
  | OSError f => u8 "[Errno 13] Permission denied: '" ++ f ++ u8 "'"
  end.

Inductive outcome (A : Type) : Type :=
| Ok (a : A)
| Raise (e : exn).
Arguments Ok {A} a.
Arguments Raise {A} e.

(** [with open(fname, 'w', encoding='utf-8') as f: f.write(...)] *)
Definition write_file (writable : ustr -> bool) (fname : ustr) : outcome unit :=
  if writable fname then Ok tt else Raise (OSError fname).

Section Classifier.

(** [extract_details_from_page(soup, page_text)]: left abstract. *)
Variable extract_details_from_page : document -> ustr -> result.

(** Rules 4 and 5 only answer when a [status] field was found. *)
Definition myprint_rule (d : document) : option result :=
  match find_myprint d with
  | Some box =>
      let r := myprint_fields box in
      match r_status r with
      | Some _ => Some (classify_status r)
      | None => None
      end
  | None => None
  end.

(** [{'success': False, 'full': True, 'status': ...}] of rule 2. *)
Definition full_result : result :=
  mkResult (Some false) (Some true) None (Some (u8 "已滿號或無可用時段"))
    None None None.

(** Rules 5 to 7. *)
Definition parse_tail (d : document) (page_text : ustr) : result :=
  match table_rule (filter (has_tag (u8 "table")) (soup_elems d)) with
  | Some r => r
  | None =>
      match filter is_error_markup (soup_elems d) with
      | [] =>
          error_result (u8 "無法解析結果，頁面內容: " ++
                        text_preview page_text ++ u8 "...")
      | errs =>
          let error_msg :=
            join (u8 " | ") (map get_text_strip (firstn 3 errs)) in
          error_result (u8 "頁面錯誤: " ++ firstn 100 error_msg)
      end
  end.

(** The body of the [try] of [parse_result] once the debug file is written. *)
Definition parse_body (d : document) : result :=
  let page_text := soup_text d in
  if any_in success_keywords page_text then
    set_full false (set_success true (extract_details_from_page d page_text))
  else if any_in full_keywords page_text then full_result
  else
    match first_in error_keywords page_text with
    | Some k => mkResult (Some false) (Some false) (Some k) None None None None
    | None =>
        match myprint_rule d with
        | Some r => r
        | None => parse_tail d page_text
        end
    end.

(** [parse_result(html_content)]: the [try] writes [last_response.html] and
    classifies; the [except] writes [error_response.html] (unguarded) and
    answers with the exception text. *)
Definition parse_result (writable : ustr -> bool) (d : document) : outcome result :=
  match write_file writable (u8 "last_response.html") with
  | Ok _ => Ok (parse_body d)
  | Raise e =>
      match write_file writable (u8 "error_response.html") with
      | Ok _ => Ok (error_result (u8 "解析異常: " ++ exn_str e))
      | Raise e' => Raise e'
      end
  end.

End Classifier.

(** ** The cooldown state file *)

Record cooldown : Type := mkCooldown {
  last_notification_time : option ustr;
  pause_until : option ustr;
  notification_count : Z;
  last_check : option ustr
}.

Definition default_state : cooldown := mkCooldown None None 0 None.

(** The content of [mackay_state.json]: [None] when the file is absent or
    cannot be read as JSON. A file holding JSON of another shape (not an
    object, or fields of other types) makes [state.get] or [+ 1] raise; such
    files are outside the model. *)
Definition store := option cooldown.

Definition state_file : ustr := u8 "mackay_state.json".

(** [load_state()] *)
Definition load_state (s : store) : cooldown :=
  match s with
  | Some st => st
  | None => default_state
  end.

(** [save_state(state)]: a refused write is logged and ignored. *)
Definition save_state (writable : ustr -> bool) (st : cooldown) (s : store) : store :=
  if writable state_file then Some st else s.

Definition clear_pause (st : cooldown) : cooldown :=
  mkCooldown (last_notification_time st) None (notification_count st) (last_check st).

Definition set_last_check (t : ustr) (st : cooldown) : cooldown :=
  mkCooldown (last_notification_time st) (pause_until st) (notification_count st) (Some t).

(** A [datetime]: its instant (seconds) and whether it carries a UTC offset. *)
Record datetime : Type := mkDatetime { dt_time : Z; dt_aware : bool }.

Section Registrar.

(** [datetime.fromisoformat] ([None]: [ValueError]) and
    [datetime.isoformat] of the naive local time [datetime.now()]. *)
Variable fromisoformat : ustr -> option datetime.
Variable isoformat : Z -> ustr.
Variable extract_details_from_page : document -> ustr -> result.

(** [should_skip_check()] at local time [now]: the answer and the new file.
    Comparing the naive [datetime.now()] with an offset-aware [pause_time]
    raises [TypeError], caught by the same handler as a parse failure. *)
Definition should_skip_check (writable : ustr -> bool) (now : Z) (s : store)
  : bool * store :=
  let state := load_state s in
  match pause_until state with
  | Some p =>
      if ustr_eqb p [] then (false, s)
      else
        match fromisoformat p with
        | Some pause_time =>
            if dt_aware pause_time then
              (false, save_state writable (clear_pause state) s)
            else if now <? dt_time pause_time then (true, s)
            else (false, save_state writable (clear_pause state) s)
        | None => (false, save_state writable (clear_pause state) s)
        end
  | None => (false, s)
  end.

(** ** The run: environment, world and a state monad *)

Inductive http_response : Type :=
| RespTimeout                       (* [requests.exceptions.Timeout] *)
| RespError (msg : ustr)            (* other [RequestException], non-2xx included *)
| RespOk (page : document).         (* the parsed [response.text] *)

(** What the outside world answers during one run. *)
Record env : Type := mkEnv {
  e_writable : ustr -> bool;
  e_get : ustr -> bool;                       (* GET succeeds with a 2xx *)
  e_post : list (ustr * ustr) -> http_response;
  e_smtp_server : ustr;
  e_smtp_ok : bool;                           (* the SMTP exchange succeeds *)
  e_id_number : ustr;
  e_birthday : ustr
}.

(** Observable calls: HTTP requests, notifications, sleeps. *)
Inductive event : Type :=
| EGet (url : ustr)
| EPost (form : list (ustr * ustr))
| ENotify (r : result)
| ESleep (secs : Z).

Record world : Type := mkWorld {
  w_store : store;
  w_clock : Z;
  w_trace : list event
}.

Definition M (A : Type) : Type := world -> A * world.

Definition ret {A : Type} (a : A) : M A := fun w => (a, w).
Definition bind {A B : Type} (m : M A) (k : A -> M B) : M B :=
  fun w => let (a, w') := m w in k a w'.

Notation "x <- m ;; k" := (bind m (fun x => k))
  (at level 61, m at next level, right associativity).
Notation "m ;;; k" := (bind m (fun _ => k))
  (at level 61, right associativity).

Definition now : M Z := fun w => (w_clock w, w).
Definition emit (e : event) : M unit :=
  fun w => (tt, mkWorld (w_store w) (w_clock w) (w_trace w ++ [e])).
Definition sleep (secs : Z) : M unit :=
  fun w => (tt, mkWorld (w_store w) (w_clock w + secs) (w_trace w ++ [ESleep secs])).
Definition load : M cooldown := fun w => (load_state (w_store w), w).
Definition save (E : env) (st : cooldown) : M unit :=
  fun w => (tt, mkWorld (save_state (e_writable E) st (w_store w)) (w_clock w) (w_trace w)).

Definition should_skip_checkM (E : env) : M bool :=
  fun w =>
    let (b, s') := should_skip_check (e_writable E) (w_clock w) (w_store w) in
    (b, mkWorld s' (w_clock w) (w_trace w)).

Definition base_url : ustr := u8 "https://www.mmh.org.tw/child".

Definition init_url : ustr := base_url ++ u8 "/index.php".
Definition register_action_url : ustr := base_url ++ u8 "/register_action.php".

(** [init_session()]: [true] when both GETs succeed; the first failure
    raises, which [batch_registration] catches. *)
Definition init_session (E : env) : M bool :=
  emit (EGet init_url);;;
  if e_get E init_url then
    emit (EGet register_action_url);;;
    ret (e_get E register_action_url)
  else ret false.

Record appointment_data : Type := mkAppointment {
  a_date : ustr;
  a_session : ustr;
  a_dept_code : ustr;
  a_doctor_code : ustr;
  a_id_number : ustr;
  a_birthday : ustr;
  a_captcha : ustr
}.

Definition form_data (a : appointment_data) : list (ustr * ustr) :=
  [(u8 "workflag", u8 "registernow"); (u8 "strSchdate", a_date a);
   (u8 "strSchap", a_session a); (u8 "strDept", a_dept_code a);
   (u8 "strDr", a_doctor_code a); (u8 "strIdnoPassPortSel", u8 "1");
   (u8 "txtID", a_id_number a); (u8 "txtBirth", a_birthday a);
   (u8 "txtwebword", a_captcha a)].

(** What [make_appointment] answers for one submission: transport
    failures and exceptions escaping [parse_result] become error
    dictionaries. *)
Definition attempt_result (E : env) (a : appointment_data) : result :=
  match e_post E (form_data a) with
  | RespTimeout => error_result (u8 "請求超時")
  | RespError msg => error_result msg
  | RespOk page =>
      match parse_result extract_details_from_page (e_writable E) page with
      | Ok r => r
      | Raise e => error_result (exn_str e)
      end
  end.

(** [make_appointment(appointment_data)]: one POST, then [parse_result]. *)
Definition make_appointment (E : env) (a : appointment_data) : M result :=
  emit (EPost (form_data a));;;
  ret (attempt_result E a).

(** [send_email_notification(result)] *)
Definition send_email_notification (E : env) (r : result) : M bool :=
  emit (ENotify r);;;
  if ustr_eqb (e_smtp_server E) [] then ret false
  else ret (e_smtp_ok E).

Record doctor : Type := mkDoctor { d_code : ustr; d_name : ustr }.

Definition appointment_for (E : env) (date : ustr) (doc : doctor) : appointment_data :=
  mkAppointment date (u8 "1") (u8 "30") (d_code doc) (e_id_number E) (e_birthday E) [].

(** The branch taken on [result.get('success')]. *)
Definition on_success (E : env) (r : result) : M unit :=
  sent <- send_email_notification E r;;
  if sent then
    state <- load;;
    t <- now;;
    save E (mkCooldown (Some (isoformat t)) (Some (isoformat (t + 7200)))
              (notification_count state + 1) (last_check state))
  else ret tt.

(** The inner loop over the doctors of one date; [true] when it returned
    ["success"]. *)
Fixpoint try_doctors (E : env) (date : ustr) (docs : list doctor) : M bool :=
  match docs with
  | [] => ret false
  | doc :: rest =>
      r <- make_appointment E (appointment_for E date doc);;
      if truthy (r_success r) then on_success E r;;; ret true
      else sleep 2;;; try_doctors E date rest
  end.

Fixpoint try_dates (E : env) (dates : list ustr) (docs : list doctor) : M bool :=
  match dates with
  | [] => ret false
  | date :: rest =>
      found <- try_doctors E date docs;;
      if found then ret true else try_dates E rest docs
  end.

(** [batch_registration()] over given date and doctor lists. *)
Definition batch_registration_with (E : env) (dates : list ustr) (docs : list doctor)
  : M ustr :=
  skip <- should_skip_checkM E;;
  if skip then ret (u8 "skipped")
  else
    ok <- init_session E;;
    if negb ok then ret (u8 "init_failed")
    else
      found <- try_dates E dates docs;;
      if found then ret (u8 "success")
      else
        state <- load;;
        t <- now;;
        save E (set_last_check (isoformat t) state);;;
        ret (u8 "no_availability").

Definition dates_to_try : list ustr :=
  map u8 ["2025/12/17"; "2025/12/27"; "2026/01/03"]%string.
Definition doctors_to_try : list doctor :=
  [mkDoctor (u8 "4561") (u8 "丁瑋信")].

(** [batch_registration()] as written, with its hard-coded lists. *)
Definition batch_registration (E : env) : M ustr :=
  batch_registration_with E dates_to_try doctors_to_try.

(** The candidates in the order of the two nested loops: dates outer,
    doctors inner, each in list order. *)
Definition candidates (dates : list ustr) (docs : list doctor) : list (ustr * doctor) :=
  flat_map (fun date => map (fun doc => (date, doc)) docs) dates.

Definition cand_data (E : env) (c : ustr * doctor) : appointment_data :=
  appointment_for E (fst c) (snd c).

Definition cand_result (E : env) (c : ustr * doctor) : result :=
  attempt_result E (cand_data E c).

(** The two nested loops as one loop over [candidates]. *)
Fixpoint try_list (E : env) (cs : list (ustr * doctor)) : M bool :=
  match cs with
  | [] => ret false
  | c :: rest =>
      r <- make_appointment E (cand_data E c);;
      if truthy (r_success r) then on_success E r;;; ret true
      else sleep 2;;; try_list E rest
  end.

End Registrar.

(** ** [main()] *)

(** The process environment [main] reads through the constructor. *)
Record os_env : Type := mkOsEnv {
  getenv_id_number : option ustr;
  getenv_birthday : option ustr;
  smtp_port_is_int : bool           (* [int(os.getenv('SMTP_PORT', '587'))] succeeds *)
}.

(** [os.getenv(var)] is truthy. *)
Definition present (o : option ustr) : bool :=
  match o with
  | Some s => negb (ustr_eqb s [])
  | None => false
  end.

(** The exit status of [sys.exit(main())]: the constructor's [int(...)]
    raises [ValueError] (caught by [main], which returns 1) and
    [validate_environment] calls [sys.exit(1)]; otherwise [main] logs the
    answer of [batch_registration] and returns 0. *)
Definition process_exit_code (fromisoformat : ustr -> option datetime)
  (isoformat : Z -> ustr) (extract_details_from_page : document -> ustr -> result)
  (o : os_env) (E : env) (w : world) : Z * world :=
  if negb (smtp_port_is_int o) then (1, w)
  else if negb (present (getenv_id_number o) && present (getenv_birthday o)) then (1, w)
  else
    let (_, w') := batch_registration fromisoformat isoformat extract_details_from_page E w in
    (0, w').

(** ** Reading a trace *)

Definition posts (tr : list event) : list (list (ustr * ustr)) :=
  flat_map (fun e => match e with EPost f => [f] | _ => [] end) tr.

Definition notifications (tr : list event) : list result :=
  flat_map (fun e => match e with ENotify r => [r] | _ => [] end) tr.

Definition http_calls (tr : list event) : nat :=
  List.length (filter (fun e => match e with EGet _ | EPost _ => true | _ => false end) tr).

(** [send_email_notification] answers [True]. *)
Definition notification_sent (E : env) : bool :=
  negb (ustr_eqb (e_smtp_server E) []) && e_smtp_ok E.

(** ** A sample [fromisoformat] / [isoformat] pair

    Used to run the model on concrete inputs: the form
    [YYYY-MM-DDTHH:MM:SS] with an optional [+HH:MM] or [-HH:MM] offset,
    as seconds from 1970-01-01T00:00:00. *)

Definition digit (c : Z) : option Z :=
  if (48 <=? c) && (c <=? 57) then Some (c - 48) else None.

Definition num2 (a b : Z) : option Z :=
  match digit a, digit b with
  | Some x, Some y => Some (10 * x + y)
  | _, _ => None
  end.

(** Days from 1970-01-01 to a proleptic Gregorian date. *)
Definition days_from_civil (y m d : Z) : Z :=
  let y' := if m <=? 2 then y - 1 else y in
  let era := y' / 400 in
  let yoe := y' - era * 400 in
  let doy := (153 * (if m >? 2 then m - 3 else m + 9) + 2) / 5 + d - 1 in
  let doe := yoe * 365 + yoe / 4 - yoe / 100 + doy in
  era * 146097 + doe - 719468.

Definition sample_fromisoformat (s : ustr) : option datetime :=
  match s with
  | y1 :: y2 :: y3 :: y4 :: dash1 :: m1 :: m2 :: dash2 :: d1 :: d2 :: tee ::
    h1 :: h2 :: col1 :: i1 :: i2 :: col2 :: s1 :: s2 :: rest =>
      match num2 y1 y2, num2 y3 y4, num2 m1 m2, num2 d1 d2,
            num2 h1 h2, num2 i1 i2, num2 s1 s2 with
      | Some ya, Some yb, Some mo, Some da, Some ho, Some mi, Some se =>
          if (dash1 =? 45) && (dash2 =? 45) && (tee =? 84) && (col1 =? 58) &&
             (col2 =? 58) && (1 <=? mo) && (mo <=? 12) && (1 <=? da) &&
             (da <=? 31) && (ho <=? 23) && (mi <=? 59) && (se <=? 59)
          then
            let t := days_from_civil (100 * ya + yb) mo da * 86400 +
                     ho * 3600 + mi * 60 + se in
            match rest with
            | [] => Some (mkDatetime t false)
            | [sg; oh1; oh2; col3; om1; om2] =>
                match num2 oh1 oh2, num2 om1 om2 with
                | Some oh, Some om =>
                    if (col3 =? 58) && ((sg =? 43) || (sg =? 45)) then
                      let off := oh * 3600 + om * 60 in
                      Some (mkDatetime (if sg =? 43 then t - off else t + off) true)
                    else None
                | _, _ => None
                end
            | _ => None
            end
          else None
      | _, _, _, _, _, _, _ => None
      end
  | _ => None
  end.

Definition civil_from_days (z : Z) : Z * Z * Z :=
  let z' := z + 719468 in
  let era := z' / 146097 in
  let doe := z' - era * 146097 in
  let yoe := (doe - doe / 1460 + doe / 36524 - doe / 146096) / 365 in
  let doy := doe - (365 * yoe + yoe / 4 - yoe / 100) in
  let mp := (5 * doy + 2) / 153 in
  let d := doy - (153 * mp + 2) / 5 + 1 in
  let m := if mp <? 10 then mp + 3 else mp - 9 in
  let y := yoe + era * 400 in
  (if m <=? 2 then y + 1 else y, m, d).

Definition pad (w : nat) (n : Z) : ustr :=
  let fix go (w : nat) (n : Z) (acc : ustr) : ustr :=
    match w with
    | O => acc
    | S w' => go w' (n / 10) ((48 + n mod 10) :: acc)
    end in
  go w n [].

Definition sample_isoformat (t : Z) : ustr :=
  let '(y, m, d) := civil_from_days (t / 86400) in
  let r := t mod 86400 in
  pad 4 y ++ [45] ++ pad 2 m ++ [45] ++ pad 2 d ++ [84] ++
  pad 2 (r / 3600) ++ [58] ++ pad 2 (r mod 3600 / 60) ++ [58] ++ pad 2 (r mod 60).

(** A sample extraction: the status the source sets, no other field. *)
Definition sample_extract (d : document) (page_text : ustr) : result :=
  set_status (u8 "掛號成功") empty_result.

(** ** [extract_details_from_page]

    The extraction the registrar runs on a page carrying a success keyword:
    values read after [<strong>] labels, then four regular expressions on
    the page text, then the default status. *)

(** The elements of a subtree in document order, each with the nodes that
    follow it in its parent ([tag.next_sibling], then its [next_sibling],
    ...). *)
Fixpoint sib_elems (n : node) (after : list node) : list (node * list node) :=
  match n with
  | Text _ => []
  | Elem _ _ _ ks =>
      (n, after) ::
      (fix go (ks : list node) : list (node * list node) :=
         match ks with
         | [] => []
         | k :: r => sib_elems k r ++ go r
         end) ks
  end.

(** The same for the whole document, whose top-level nodes are siblings. *)
Fixpoint soup_sib_elems (d : document) : list (node * list node) :=
  match d with
  | [] => []
  | k :: r => sib_elems k r ++ soup_sib_elems r
  end.

(** The [while next_sibling and not next_text.strip()] loop: the text of the
    first sibling whose stripped text is not empty, [''] when there is none.
    A tag is always truthy; an empty string is falsy and ends the loop. For
    a text node [get_text(strip=True)] and [.strip()] give the same string. *)
Fixpoint next_text (sibs : list node) : ustr :=
  match sibs with
  | [] => []
  | Text [] :: _ => []
  | s :: rest =>
      let t := match s with
               | Text x => strip x
               | Elem _ _ _ _ => get_text_strip s
               end in
      if ustr_eqb (strip t) [] then next_text rest else t
  end.

(** The three keys the extraction fills. *)
Inductive detail_key : Type := KDate | KDepartment | KDoctor.

Definition get_detail (k : detail_key) (r : result) : option ustr :=
  match k with
  | KDate => r_appointment_date r
  | KDepartment => r_department r
  | KDoctor => r_doctor r
  end.

Definition set_detail (k : detail_key) (v : ustr) (r : result) : result :=
  match k with
  | KDate => set_appointment_date v r
  | KDepartment => set_department v r
  | KDoctor => set_doctor v r
  end.

(** [not result.get(key)] *)
Definition blank (o : option ustr) : bool :=
  match o with
  | Some (_ :: _) => false
  | _ => true
  end.

(** One [<strong>] tag with its following siblings. *)
Definition strong_item (r : result) (ts : node * list node) : result :=
  let tag_text := get_text_strip (fst ts) in
  let nt := next_text (snd ts) in
  if contains (u8 "日期") tag_text && blank (get_detail KDate r) then
    set_detail KDate nt r
  else if contains (u8 "科別") tag_text && blank (get_detail KDepartment r) then
    set_detail KDepartment nt r
  else if contains (u8 "醫師") tag_text && blank (get_detail KDoctor r) then
    set_detail KDoctor nt r
  else r.

(** Method 1: the loop over [soup.find_all('strong')]. *)
Definition strong_fields (d : document) : result :=
  fold_left strong_item
    (filter (fun ts => has_tag (u8 "strong") (fst ts)) (soup_sib_elems d)) empty_result.

(** ['：'] (U+FF1A) or [':'] *)
Definition is_colon (c : Z) : bool := (c =? 65306) || (c =? 58).

(** The longest prefix without whitespace ([[^\s]*], greedy). Python's [\s]
    on a [str] pattern is [str.isspace]. *)
Fixpoint nonspace_run (s : ustr) : ustr :=
  match s with
  | [] => []
  | c :: r => if is_space c then [] else c :: nonspace_run r
  end.

(** [\s*([^\s]+)] matched at the start of [s]: group 1, if it matches. *)
Definition spaces_then_word (s : ustr) : option ustr :=
  match nonspace_run (lstrip s) with
  | [] => None
  | g => Some g
  end.

(** [[：:]?\s*([^\s]+)] at the start of [s]: the optional colon is taken
    first and given back when nothing can follow it. *)
Definition label_tail (s : ustr) : option ustr :=
  match s with
  | c :: r =>
      if is_colon c then
        match spaces_then_word r with
        | Some g => Some g
        | None => spaces_then_word s
        end
      else spaces_then_word s
  | [] => None
  end.

(** [re.search(label + r'[：:]?\s*([^\s]+)', text)]: group 1 of the leftmost
    match. *)
Fixpoint search_label (label text : ustr) : option ustr :=
  match (if prefixb label text then label_tail (skipn (List.length label) text)
         else None) with
  | Some g => Some g
  | None =>
      match text with
      | [] => None
      | _ :: text' => search_label label text'
      end
  end.

(** [[-/]] *)
Definition is_sep (c : Z) : bool := (c =? 45) || (c =? 47).

(** The first alternative for which [f] answers. *)
Fixpoint first_some {A B : Type} (f : A -> option B) (l : list A) : option B :=
  match l with
  | [] => None
  | x :: r => match f x with Some y => Some y | None => first_some f r end
  end.

Section DateRegex.

(** [\d] on a [str] pattern: [str.isdecimal] on one code point, as given by
    the Unicode tables of the running Python. *)
Variable is_decimal : Z -> bool.

(** [\d{1,2}[-/]] at the start of [s]: the ways it matches, greedy first
    (the matched text and what follows). *)
Definition month_alts (s : ustr) : list (ustr * ustr) :=
  match s with
  | a :: b :: c :: r =>
      if is_decimal a && is_decimal b && is_sep c then [([a; b; c], r)] else []
  | _ => []
  end ++
  match s with
  | a :: b :: r => if is_decimal a && is_sep b then [([a; b], r)] else []
  | _ => []
  end.

(** A final [\d{1,2}]: greedy, nothing after it. *)
Definition digits12 (s : ustr) : option ustr :=
  match s with
  | a :: b :: _ =>
      if is_decimal a then (if is_decimal b then Some [a; b] else Some [a]) else None
  | [a] => if is_decimal a then Some [a] else None
  | [] => None
  end.

(** [\d{4}[-/]\d{1,2}[-/]\d{1,2}] at the start of [s]. *)
Definition date_at (s : ustr) : option ustr :=
  match s with
  | y1 :: y2 :: y3 :: y4 :: sp :: r =>
      if is_decimal y1 && is_decimal y2 && is_decimal y3 && is_decimal y4 && is_sep sp
      then first_some (fun mr => match digits12 (snd mr) with
                                 | Some dd => Some ([y1; y2; y3; y4; sp] ++ fst mr ++ dd)
                                 | None => None
                                 end) (month_alts r)
      else None
  | _ => None
  end.

(** [re.search(r'(\d{4}[-/]\d{1,2}[-/]\d{1,2})', text).group(1)] *)
Fixpoint search_date (text : ustr) : option ustr :=
  match date_at text with
  | Some g => Some g
  | None =>
      match text with
      | [] => None
      | _ :: text' => search_date text'
      end
  end.

(** Method 2: [patterns], in order, each with the key it fills. *)
Definition patterns : list ((ustr -> option ustr) * detail_key) :=
  [(search_label (u8 "看診日期"), KDate);
   (search_label (u8 "科別"), KDepartment);
   (search_label (u8 "醫師"), KDoctor);
   (search_date, KDate)].

(** [if match and not result.get(key): result[key] = match.group(1)] *)
Definition pattern_step (page_text : ustr) (r : result)
  (pk : (ustr -> option ustr) * detail_key) : result :=
  match fst pk page_text with
  | Some g => if blank (get_detail (snd pk) r) then set_detail (snd pk) g r else r
  | None => r
  end.

(** [extract_details_from_page(soup, page_text)] *)
Definition extract_details_from_page (d : document) (page_text : ustr) : result :=
  set_status (u8 "掛號成功")
    (fold_left (pattern_step page_text) patterns (strong_fields d)).

End DateRegex.

(** [str.isdecimal] restricted to the ASCII digits, for running examples. *)
Definition ascii_decimal (c : Z) : bool := (48 <=? c) && (c <=? 57).



(** ** Sample inputs *)

Definition all_writable : ustr -> bool := fun _ => true.

(** Every file but [last_response.html] can be written. *)
Definition debug_file_refused : ustr -> bool :=
  fun f => negb (ustr_eqb f (u8 "last_response.html")).

(** A page with a success phrase followed by a full-slot phrase. *)
Definition page_success_then_full : document :=
  [Elem (u8 "body") None []
     [Elem (u8 "p") None [] [Text (u8 "掛號成功")];
      Elem (u8 "p") None [] [Text (u8 "本診已額滿，請改掛其他時段")]]].

(** A [div#myprint] block whose result text is neither full nor success. *)
Definition myprint_pending : node :=
  Elem (u8 "div") (Some (u8 "myprint")) []
    [Elem (u8 "ul") None []
       [Elem (u8 "li") None [] [Text (u8 "看診日期：2025/12/17")];
        Elem (u8 "li") None [] [Text (u8 "掛號結果：處理中")]]].

(** That block followed by an alert. *)
Definition page_myprint_pending : document :=
  [myprint_pending;
   Elem (u8 "span") None [u8 "alert"] [Text (u8 "系統忙碌")]].

Definition plain_page : document := [Text (u8 "Hello")].

(** A state paused until a timestamp carrying a UTC offset. *)
Definition paused_with_offset : cooldown :=
  mkCooldown None (Some (u8 "2999-01-01T00:00:00+00:00")) 1 None.

(** A state whose [pause_until] is not a timestamp. *)
Definition paused_garbage : cooldown :=
  mkCooldown None (Some (u8 "soon")) 1 None.

(** A state paused until a naive local timestamp. *)
Definition paused_naive : cooldown :=
  mkCooldown None (Some (u8 "2025-12-17T12:00:00")) 1 None.

(** 2025-12-17T10:00:00 *)
Definition t_morning : Z := 1765965600.

(** The value of the [strDr] field of a form. *)
Definition form_doctor (f : list (ustr * ustr)) : option ustr :=
  option_map snd (find (fun kv => ustr_eqb (fst kv) (u8 "strDr")) f).

Definition page_full : document := [Text (u8 "本診已額滿")].
Definition page_success : document := [Text (u8 "掛號成功")].

(** A run environment: every file writable, both GETs succeed, the POST
    answers [answer]. *)
Definition sample_env (answer : list (ustr * ustr) -> http_response)
  (smtp_server : ustr) (get_ok : bool) : env :=
  mkEnv all_writable (fun _ => get_ok) answer smtp_server true
    (u8 "A123456789") (u8 "20200101").

Definition doctor_1 : doctor := mkDoctor (u8 "4561") (u8 "D1").
Definition doctor_2 : doctor := mkDoctor (u8 "4562") (u8 "D2").

(** Full for [doctor_1], success for anyone else. *)
Definition answer_d1_full : list (ustr * ustr) -> http_response :=
  fun f => match form_doctor f with
           | Some code => if ustr_eqb code (d_code doctor_1) then RespOk page_full
                          else RespOk page_success
           | None => RespOk page_success
           end.

Definition start_world (s : store) : world := mkWorld s t_morning [].

Definition ok_os_env : os_env :=
  mkOsEnv (Some (u8 "A123456789")) (Some (u8 "20200101")) true.

Definition smtp_host : ustr := u8 "smtp.example.com".

(** Full for [doctor_1], success for [doctor_2], mail delivered. *)
Definition env_d1_full : env := sample_env answer_d1_full smtp_host true.
(** Every POST succeeds, no SMTP server configured. *)
Definition env_no_smtp : env := sample_env (fun _ => RespOk page_success) [] true.
(** Every POST answers full. *)
Definition env_all_full : env := sample_env (fun _ => RespOk page_full) smtp_host true.
(** The session GETs fail. *)
Definition env_no_session : env :=
  sample_env (fun _ => RespOk page_success) smtp_host false.

Definition day_1 : ustr := u8 "2025/12/17".



(** A success page whose date follows a [<strong>] label. *)
Definition page_strong_date : document :=
  [Elem (u8 "body") None []
     [Elem (u8 "p") None [] [Text (u8 "掛號成功")];
      Elem (u8 "strong") None [] [Text (u8 "看診日期")]; Text (u8 " ");
      Elem (u8 "span") None [] [Text (u8 "2025/12/17")];
      Text (u8 "（原訂 2025/12/10）")]].

(** A success page giving its date as plain text. *)
Definition page_text_date : document :=
  [Text (u8 "掛號成功 看診日期：2025/12/18 於 2025/12/01 受理")].

(** ** The classifier *)

Example parse_body_plain :
  parse_body sample_extract plain_page =
  error_result (u8 "無法解析結果，頁面內容: Hello...").
Proof. vm_compute. reflexivity. Qed.

Example parse_body_alert :
  parse_body sample_extract [Elem (u8 "span") None [u8 "alert"] [Text (u8 " x ")]] =
  error_result (u8 "頁面錯誤: x").
Proof. vm_compute. reflexivity. Qed.

(** C1 (counterexample): a page holding the full-slot keyword [額滿] is
    classified as a success because it also holds [掛號成功]. *)
Lemma C1_full_keyword_overridden :
  any_in full_keywords (soup_text page_success_then_full) = true /\
  parse_result sample_extract all_writable page_success_then_full =
  Ok (mkResult (Some true) (Some false) None (Some (u8 "掛號成功")) None None None).
Proof. split; vm_compute; reflexivity. Qed.

(** C1 (amended): once the debug dump is written, a page containing a
    full-slot keyword and no success keyword is [full_result]; success
    keywords are checked first, so a page with both is a success. *)
Theorem parse_result_full_keyword
  (extract : document -> ustr -> result) (writable : ustr -> bool) (d : document) :
  writable (u8 "last_response.html") = true ->
  any_in full_keywords (soup_text d) = true ->
  (any_in success_keywords (soup_text d) = false ->
   parse_result extract writable d = Ok full_result) /\
  (any_in success_keywords (soup_text d) = true ->
   exists r, parse_result extract writable d = Ok r /\
             r_success r = Some true /\ r_full r = Some false).
Proof.
  intros Hw Hf.
  unfold parse_result, write_file. rewrite Hw.
  unfold parse_body. cbv zeta.
  split; intros Hs; rewrite Hs.
  - rewrite Hf. reflexivity.
  - eexists. split; [reflexivity | split; reflexivity].
Qed.


Lemma parse_result_full_keyword_witness :
  all_writable (u8 "last_response.html") = true /\
  any_in full_keywords (soup_text [Text (u8 "本診已額滿")]) = true /\
  any_in success_keywords (soup_text [Text (u8 "本診已額滿")]) = false /\
  parse_result sample_extract all_writable [Text (u8 "本診已額滿")] = Ok full_result.
Proof.
  assert (Hw : all_writable (u8 "last_response.html") = true) by reflexivity.
  assert (Hf : any_in full_keywords (soup_text [Text (u8 "本診已額滿")]) = true)
    by (vm_compute; reflexivity).
  assert (Hs : any_in success_keywords (soup_text [Text (u8 "本診已額滿")]) = false)
    by (vm_compute; reflexivity).
  refine (conj Hw (conj Hf (conj Hs _))).
  exact (proj1 (parse_result_full_keyword sample_extract all_writable _ Hw Hf) Hs).
Defined.

(** C3 (counterexample): when the debug dump [last_response.html] cannot be
    written, [parse_result] answers with the exception text, not with the
    raw excerpt of the page. *)
Lemma C3_exception_not_excerpt :
  parse_result sample_extract debug_file_refused plain_page =
  Ok (error_result
        (u8 "解析異常: [Errno 13] Permission denied: 'last_response.html'")) /\
  parse_result sample_extract debug_file_refused plain_page <>
  Ok (parse_body sample_extract plain_page).
Proof. split; vm_compute; [reflexivity | discriminate]. Qed.

(** C3 (amended): as long as the handler's own dump to
    [error_response.html] succeeds, [parse_result] returns a result; an
    exception of its body becomes the failure dictionary
    [{'success': False, 'error': '解析異常: ' + str(e)}]. *)
Theorem parse_result_catches_body_exception
  (extract : document -> ustr -> result) (writable : ustr -> bool) (d : document) :
  writable (u8 "error_response.html") = true ->
  exists r, parse_result extract writable d = Ok r /\
    (writable (u8 "last_response.html") = false ->
     r = error_result (u8 "解析異常: " ++ exn_str (OSError (u8 "last_response.html"))) /\
     r_success r = Some false).
Proof.
  intros He. unfold parse_result, write_file.
  destruct (writable (u8 "last_response.html")) eqn:Hl.
  - eexists. split; [reflexivity | discriminate].
  - rewrite He. eexists. split; [reflexivity | split; reflexivity].
Qed.

Lemma parse_result_catches_body_exception_witness :
  debug_file_refused (u8 "error_response.html") = true /\
  exists r, parse_result sample_extract debug_file_refused plain_page = Ok r /\
    (debug_file_refused (u8 "last_response.html") = false ->
     r = error_result (u8 "解析異常: " ++ exn_str (OSError (u8 "last_response.html"))) /\
     r_success r = Some false).
Proof.
  assert (He : debug_file_refused (u8 "error_response.html") = true)
    by (vm_compute; reflexivity).
  exact (conj He (parse_result_catches_body_exception sample_extract _ plain_page He)).
Defined.

(** The [li] items of [div#myprint] only fill the four text fields. *)
Lemma myprint_fold_keeps
  (l : list node) (r : result) :
  r_success (fold_left myprint_item l r) = r_success r /\
  r_full (fold_left myprint_item l r) = r_full r /\
  r_error (fold_left myprint_item l r) = r_error r.
Proof.
  revert r. induction l as [|item l IH]; intros r; simpl.
  - auto.
  - destruct (IH (myprint_item r item)) as (H1 & H2 & H3).
    rewrite H1, H2, H3. unfold myprint_item.
    repeat match goal with
           | |- context [if ?c then _ else _] => destruct c
           end; simpl; auto.
Qed.

(** C8 (counterexample): the [myprint] block's result text [處理中] matches
    no keyword, yet [parse_result] answers from that block (no [error] key),
    where the following rules would have reported the alert. *)
Lemma C8_myprint_status_returns :
  any_in success_keywords (soup_text page_myprint_pending) = false /\
  any_in full_keywords (soup_text page_myprint_pending) = false /\
  first_in error_keywords (soup_text page_myprint_pending) = None /\
  parse_result sample_extract all_writable page_myprint_pending =
  Ok (mkResult (Some false) (Some false) None (Some (u8 "處理中"))
        (Some (u8 "2025/12/17")) None None) /\
  parse_tail page_myprint_pending (soup_text page_myprint_pending) =
  error_result (u8 "頁面錯誤: 系統忙碌").
Proof. repeat split; vm_compute; reflexivity. Qed.

(** C8 (amended): when no page keyword matched and [div#myprint] holds a
    [掛號結果：] item, [parse_result] answers from the block: full for
    [滿號]/[請改掛], success for [成功]/[已掛號], otherwise a failure that is
    neither full nor an error; the later rules run only when the block has
    no such item. *)
Theorem parse_result_myprint_rule
  (extract : document -> ustr -> result) (writable : ustr -> bool)
  (d : document) (box : node) :
  writable (u8 "last_response.html") = true ->
  any_in success_keywords (soup_text d) = false ->
  any_in full_keywords (soup_text d) = false ->
  first_in error_keywords (soup_text d) = None ->
  find_myprint d = Some box ->
  (forall s, r_status (myprint_fields box) = Some s ->
   exists r, parse_result extract writable d = Ok r /\
     r_status r = Some s /\ r_error r = None /\
     ((contains (u8 "滿號") s || contains (u8 "請改掛") s) = true ->
      r_success r = Some false /\ r_full r = Some true) /\
     ((contains (u8 "滿號") s || contains (u8 "請改掛") s) = false ->
      (contains (u8 "成功") s || contains (u8 "已掛號") s) = true ->
      r_success r = Some true /\ r_full r = Some false) /\
     ((contains (u8 "滿號") s || contains (u8 "請改掛") s) = false ->
      (contains (u8 "成功") s || contains (u8 "已掛號") s) = false ->
      r_success r = Some false /\ r_full r = Some false)) /\
  (r_status (myprint_fields box) = None ->
   parse_result extract writable d = Ok (parse_tail d (soup_text d))).
Proof.
  intros Hw Hs Hf He Hb.
  unfold parse_result, write_file. rewrite Hw.
  unfold parse_body. cbv zeta. rewrite Hs, Hf, He.
  unfold myprint_rule. rewrite Hb.
  destruct (myprint_fold_keeps (find_all "li" box) empty_result) as (_ & _ & Herr).
  fold (myprint_fields box) in Herr.
  split.
  - intros s Hst. rewrite Hst.
    exists (classify_status (myprint_fields box)). split; [reflexivity|].
    unfold classify_status. rewrite Hst.
    destruct (contains (u8 "滿號") s || contains (u8 "請改掛") s) eqn:Hfull;
      [|destruct (contains (u8 "成功") s || contains (u8 "已掛號") s) eqn:Hok];
      simpl; rewrite ?Hst, ?Herr; repeat split; auto; discriminate.
  - intros Hst. rewrite Hst. reflexivity.
Qed.

Lemma parse_result_myprint_rule_witness :
  find_myprint page_myprint_pending = Some myprint_pending /\
  r_status (myprint_fields myprint_pending) = Some (u8 "處理中") /\
  exists r, parse_result sample_extract all_writable page_myprint_pending = Ok r /\
    r_success r = Some false /\ r_full r = Some false /\ r_error r = None.
Proof.
  assert (Hw : all_writable (u8 "last_response.html") = true) by reflexivity.
  assert (Hs : any_in success_keywords (soup_text page_myprint_pending) = false)
    by (vm_compute; reflexivity).
  assert (Hf : any_in full_keywords (soup_text page_myprint_pending) = false)
    by (vm_compute; reflexivity).
  assert (He : first_in error_keywords (soup_text page_myprint_pending) = None)
    by (vm_compute; reflexivity).
  assert (Hb : find_myprint page_myprint_pending = Some myprint_pending)
    by (vm_compute; reflexivity).
  assert (Hst : r_status (myprint_fields myprint_pending) = Some (u8 "處理中"))
    by (vm_compute; reflexivity).
  destruct (proj1 (parse_result_myprint_rule sample_extract all_writable _ _
                     Hw Hs Hf He Hb) _ Hst) as (r & Hr & _ & Herr & _ & _ & Hneither).
  refine (conj Hb (conj Hst (ex_intro _ r (conj Hr _)))).
  assert (Hn1 : (contains (u8 "滿號") (u8 "處理中") || contains (u8 "請改掛") (u8 "處理中")) = false)
    by (vm_compute; reflexivity).
  assert (Hn2 : (contains (u8 "成功") (u8 "處理中") || contains (u8 "已掛號") (u8 "處理中")) = false)
    by (vm_compute; reflexivity).
  destruct (Hneither Hn1 Hn2) as [H1 H2].
  exact (conj H1 (conj H2 Herr)).
Defined.

(** ** The cooldown guard *)

Lemma ustr_eqb_nil (p : ustr) : ustr_eqb p [] = true <-> p = [].
Proof. unfold ustr_eqb; destruct p; simpl; split; congruence. Qed.

(** The file [should_skip_check] leaves behind after answering [false]. *)
Lemma should_skip_check_false_store
  (fromiso : ustr -> option datetime) (writable : ustr -> bool) (now : Z) (s : store) :
  fst (should_skip_check fromiso writable now s) = false ->
  snd (should_skip_check fromiso writable now s) =
  match pause_until (load_state s) with
  | Some p => if ustr_eqb p [] then s
              else save_state writable (clear_pause (load_state s)) s
  | None => s
  end.
Proof.
  unfold should_skip_check.
  destruct (pause_until (load_state s)) as [p|]; [|reflexivity].
  destruct (ustr_eqb p []); [reflexivity|].
  destruct (fromiso p) as [[t aw]|]; simpl; [|reflexivity].
  destruct aw; [reflexivity|].
  destruct (now <? t); simpl; [discriminate | reflexivity].
Qed.

(** C6 (counterexample): [pause_until] lies far in the future but carries
    a UTC offset; comparing it with the naive [datetime.now()] raises, so
    [should_skip_check] answers [false] and clears the pause. *)
Lemma C6_offset_pause_not_honoured :
  (match sample_fromisoformat (u8 "2999-01-01T00:00:00+00:00") with
   | Some pause_time => t_morning <? dt_time pause_time
   | None => false
   end) = true /\
  should_skip_check sample_fromisoformat all_writable t_morning (Some paused_with_offset) =
  (false, Some (clear_pause paused_with_offset)).
Proof. split; vm_compute; reflexivity. Qed.

(** C6 (amended): [should_skip_check] answers [true] exactly when
    [pause_until] is a non-empty string parsing to a naive timestamp [t]
    with [now < t], and then leaves the file alone; on a [false] answer a
    set [pause_until] (expired, unparsable or offset-aware) is cleared
    through [save_state]; asking again at a later or equal time after a
    [false] answer yields [false] and the same file. *)
Theorem should_skip_check_spec
  (fromiso : ustr -> option datetime) (writable : ustr -> bool)
  (now now' : Z) (s : store) :
  (fst (should_skip_check fromiso writable now s) = true <->
   exists p t, pause_until (load_state s) = Some p /\ p <> [] /\
     fromiso p = Some (mkDatetime t false) /\ now < t) /\
  (fst (should_skip_check fromiso writable now s) = true ->
   snd (should_skip_check fromiso writable now s) = s) /\
  (fst (should_skip_check fromiso writable now s) = false ->
   snd (should_skip_check fromiso writable now s) =
   match pause_until (load_state s) with
   | Some p => if ustr_eqb p [] then s
               else save_state writable (clear_pause (load_state s)) s
   | None => s
   end) /\
  (now <= now' ->
   fst (should_skip_check fromiso writable now s) = false ->
   should_skip_check fromiso writable now' (snd (should_skip_check fromiso writable now s)) =
   (false, snd (should_skip_check fromiso writable now s))).
Proof.
  split; [|split; [|split]].
  - unfold should_skip_check. split.
    + destruct (pause_until (load_state s)) as [p|] eqn:Hp; [|discriminate].
      destruct (ustr_eqb p []) eqn:He; [discriminate|].
      destruct (fromiso p) as [[t aw]|] eqn:Hf; simpl; [|discriminate].
      destruct aw; [discriminate|].
      destruct (now <? t) eqn:Hlt; simpl; [|discriminate].
      intros _. exists p, t. apply Z.ltb_lt in Hlt.
      repeat split; auto.
      intros Hn. apply ustr_eqb_nil in Hn. congruence.
    + intros (p & t & Hp & Hne & Hf & Hlt). rewrite Hp.
      destruct (ustr_eqb p []) eqn:He; [apply ustr_eqb_nil in He; contradiction|].
      rewrite Hf. simpl. apply Z.ltb_lt in Hlt. rewrite Hlt. reflexivity.
  - unfold should_skip_check.
    destruct (pause_until (load_state s)) as [p|]; [|reflexivity].
    destruct (ustr_eqb p []); [reflexivity|].
    destruct (fromiso p) as [[t aw]|]; simpl; [|discriminate].
    destruct aw; [discriminate|].
    destruct (now <? t); simpl; [reflexivity | discriminate].
  - apply should_skip_check_false_store.
  - intros Hle Hfalse.
    rewrite (should_skip_check_false_store _ _ _ _ Hfalse).
    revert Hfalse. unfold should_skip_check, save_state.
    destruct (pause_until (load_state s)) as [p|] eqn:Hp;
      [|rewrite Hp; reflexivity].
    destruct (ustr_eqb p []) eqn:He; [rewrite Hp, He; reflexivity|].
    destruct (writable state_file) eqn:Hw; [reflexivity|].
    rewrite Hp, He.
    destruct (fromiso p) as [[t aw]|]; simpl; [|reflexivity].
    destruct aw; simpl; [reflexivity|].
    destruct (now <? t) eqn:Hlt; simpl; [discriminate|].
    intros _. apply Z.ltb_ge in Hlt.
    replace (now' <? t) with false by (symmetry; apply Z.ltb_ge; lia).
    simpl. reflexivity.
Qed.

Lemma should_skip_check_spec_witness :
  should_skip_check sample_fromisoformat all_writable t_morning (Some paused_naive) =
  (true, Some paused_naive) /\
  should_skip_check sample_fromisoformat all_writable (t_morning + 7200) (Some paused_naive) =
  (false, Some (clear_pause paused_naive)) /\
  should_skip_check sample_fromisoformat all_writable (t_morning + 9000)
    (Some (clear_pause paused_naive)) =
  (false, Some (clear_pause paused_naive)).
Proof.
  assert (H1 : should_skip_check sample_fromisoformat all_writable (t_morning + 7200)
                 (Some paused_naive) = (false, Some (clear_pause paused_naive)))
    by (vm_compute; reflexivity).
  split; [vm_compute; reflexivity | split; [exact H1|]].
  destruct (should_skip_check_spec sample_fromisoformat all_writable
              (t_morning + 7200) (t_morning + 9000) (Some paused_naive))
    as (_ & _ & _ & Hidem).
  rewrite H1 in Hidem. apply Hidem; [unfold t_morning; lia | reflexivity].
Defined.

(** C10: a non-empty [pause_until] that [fromisoformat] rejects makes
    [should_skip_check] answer [false] and save the state with the pause
    cleared; once that state is on disk, no later call skips. *)
Theorem should_skip_check_unparsable
  (fromiso : ustr -> option datetime) (writable : ustr -> bool)
  (now : Z) (s : store) (p : ustr) :
  pause_until (load_state s) = Some p -> p <> [] -> fromiso p = None ->
  should_skip_check fromiso writable now s =
  (false, save_state writable (clear_pause (load_state s)) s) /\
  (writable state_file = true ->
   forall now', should_skip_check fromiso writable now'
                  (Some (clear_pause (load_state s))) =
                (false, Some (clear_pause (load_state s)))).
Proof.
  intros Hp Hne Hf. split.
  - unfold should_skip_check. rewrite Hp.
    destruct (ustr_eqb p []) eqn:He; [apply ustr_eqb_nil in He; contradiction|].
    rewrite Hf. reflexivity.
  - intros _ now'. reflexivity.
Qed.

Lemma should_skip_check_unparsable_witness :
  pause_until (load_state (Some paused_garbage)) = Some (u8 "soon") /\
  sample_fromisoformat (u8 "soon") = None /\
  should_skip_check sample_fromisoformat all_writable t_morning (Some paused_garbage) =
  (false, Some (clear_pause paused_garbage)).
Proof.
  assert (Hp : pause_until (load_state (Some paused_garbage)) = Some (u8 "soon"))
    by reflexivity.
  assert (Hf : sample_fromisoformat (u8 "soon") = None) by reflexivity.
  refine (conj Hp (conj Hf _)).
  exact (proj1 (should_skip_check_unparsable sample_fromisoformat all_writable
                  t_morning _ _ Hp ltac:(discriminate) Hf)).
Defined.

(** ** The attempt loop *)

Section Loop.

Variable fromiso : ustr -> option datetime.
Variable iso : Z -> ustr.
Variable extract : document -> ustr -> result.

(** The file after [on_success] at time [t]. *)
Lemma on_success_eq (E : env) (r : result) (w : world) :
  on_success iso E r w =
  (tt, mkWorld
         (if notification_sent E then
            save_state (e_writable E)
              (mkCooldown (Some (iso (w_clock w))) (Some (iso (w_clock w + 7200)))
                 (notification_count (load_state (w_store w)) + 1)
                 (last_check (load_state (w_store w))))
              (w_store w)
          else w_store w)
         (w_clock w) (w_trace w ++ [ENotify r])).
Proof.
  unfold on_success, send_email_notification, notification_sent, bind, emit, ret,
    load, now, save.
  destruct (ustr_eqb (e_smtp_server E) []); simpl; [reflexivity|].
  destruct (e_smtp_ok E); reflexivity.
Qed.

Lemma try_list_cons_fail (E : env) (c : ustr * doctor) (rest : list (ustr * doctor))
  (w : world) :
  truthy (r_success (cand_result extract E c)) = false ->
  try_list iso extract E (c :: rest) w =
  try_list iso extract E rest
    (mkWorld (w_store w) (w_clock w + 2)
       (w_trace w ++ [EPost (form_data (cand_data E c)); ESleep 2])).
Proof.
  intros H. unfold cand_result in H. simpl.
  unfold bind, make_appointment, emit, ret, sleep. simpl.
  rewrite H. simpl. rewrite <- app_assoc. reflexivity.
Qed.

Lemma try_list_cons_success (E : env) (c : ustr * doctor) (rest : list (ustr * doctor))
  (w : world) :
  truthy (r_success (cand_result extract E c)) = true ->
  try_list iso extract E (c :: rest) w =
  (true, snd (on_success iso E (cand_result extract E c)
                (mkWorld (w_store w) (w_clock w)
                   (w_trace w ++ [EPost (form_data (cand_data E c))])))).
Proof.
  intros H. unfold cand_result in *. simpl.
  unfold bind, make_appointment, emit, ret. simpl.
  rewrite H.
  destruct (on_success iso E _ _) as [[] w']. reflexivity.
Qed.

Lemma try_list_app (E : env) (l1 l2 : list (ustr * doctor)) (w : world) :
  try_list iso extract E (l1 ++ l2) w =
  let (b, w') := try_list iso extract E l1 w in
  if b then (true, w') else try_list iso extract E l2 w'.
Proof.
  revert w. induction l1 as [|c l1 IH]; intros w; [reflexivity|].
  simpl app.
  destruct (truthy (r_success (cand_result extract E c))) eqn:H.
  - rewrite !try_list_cons_success by exact H. reflexivity.
  - rewrite !try_list_cons_fail by exact H. apply IH.
Qed.

Lemma try_doctors_eq (E : env) (date : ustr) (docs : list doctor) (w : world) :
  try_doctors iso extract E date docs w =
  try_list iso extract E (map (fun doc => (date, doc)) docs) w.
Proof.
  revert w. induction docs as [|doc docs IH]; intros w; [reflexivity|].
  simpl. unfold bind, make_appointment, emit, ret, sleep, cand_data. simpl.
  destruct (truthy (r_success (attempt_result extract E (appointment_for E date doc)))).
  - reflexivity.
  - apply IH.
Qed.

Lemma try_dates_eq (E : env) (dates : list ustr) (docs : list doctor) (w : world) :
  try_dates iso extract E dates docs w =
  try_list iso extract E (candidates dates docs) w.
Proof.
  revert w. induction dates as [|date dates IH]; intros w; [reflexivity|].
  unfold candidates. simpl flat_map. fold (candidates dates docs).
  rewrite try_list_app. simpl. unfold bind, ret.
  rewrite try_doctors_eq.
  destruct (try_list iso extract E (map (fun doc => (date, doc)) docs) w) as [[|] w'].
  - reflexivity.
  - apply IH.
Qed.

Lemma try_list_all_fail (E : env) (cs : list (ustr * doctor)) (w : world) :
  Forall (fun c => truthy (r_success (cand_result extract E c)) = false) cs ->
  try_list iso extract E cs w =
  (false, mkWorld (w_store w) (w_clock w + 2 * Z.of_nat (List.length cs))
            (w_trace w ++
             flat_map (fun c => [EPost (form_data (cand_data E c)); ESleep 2]) cs)).
Proof.
  revert w. induction cs as [|c cs IH]; intros w Hall.
  - destruct w as [st cl tr]. simpl. rewrite Z.add_0_r, app_nil_r. reflexivity.
  - inversion Hall as [|? ? Hc Hcs]; subst.
    rewrite try_list_cons_fail by exact Hc. rewrite IH by exact Hcs.
    cbn [w_store w_clock w_trace flat_map List.length].
    rewrite Nat2Z.inj_succ, <- app_assoc. f_equal. f_equal. lia.
Qed.

Lemma try_list_first_success (E : env) (pre : list (ustr * doctor)) (c : ustr * doctor)
  (post : list (ustr * doctor)) (w : world) :
  Forall (fun c' => truthy (r_success (cand_result extract E c')) = false) pre ->
  truthy (r_success (cand_result extract E c)) = true ->
  try_list iso extract E (pre ++ c :: post) w =
  (true, snd (on_success iso E (cand_result extract E c)
                (mkWorld (w_store w) (w_clock w + 2 * Z.of_nat (List.length pre))
                   (w_trace w ++
                    flat_map (fun c' => [EPost (form_data (cand_data E c')); ESleep 2]) pre ++
                    [EPost (form_data (cand_data E c))])))).
Proof.
  intros Hpre Hc.
  rewrite try_list_app, (try_list_all_fail _ _ _ Hpre). cbv beta iota.
  rewrite try_list_cons_success by exact Hc. simpl. rewrite app_assoc. reflexivity.
Qed.

(** Past the cooldown guard and the session set-up, the run is the loop
    over [candidates] followed by the [last_check] update. *)
Lemma batch_registration_with_past_guard (E : env) (dates : list ustr)
  (docs : list doctor) (w : world) :
  fst (should_skip_check fromiso (e_writable E) (w_clock w) (w_store w)) = false ->
  e_get E init_url = true -> e_get E register_action_url = true ->
  batch_registration_with fromiso iso extract E dates docs w =
  let (found, w2) :=
    try_list iso extract E (candidates dates docs)
      (mkWorld (snd (should_skip_check fromiso (e_writable E) (w_clock w) (w_store w)))
         (w_clock w) (w_trace w ++ [EGet init_url; EGet register_action_url])) in
  if found then (u8 "success", w2)
  else (u8 "no_availability",
        mkWorld (save_state (e_writable E)
                   (set_last_check (iso (w_clock w2)) (load_state (w_store w2)))
                   (w_store w2))
          (w_clock w2) (w_trace w2)).
Proof.
  intros Hskip Hg1 Hg2.
  unfold batch_registration_with, should_skip_checkM, bind.
  destruct (should_skip_check fromiso (e_writable E) (w_clock w) (w_store w))
    as [b s1] eqn:Hs.
  simpl in Hskip. subst b.
  unfold init_session, emit, bind, ret. simpl. rewrite Hg1, Hg2. simpl.
  rewrite try_dates_eq. rewrite <- app_assoc. simpl.
  destruct (try_list iso extract E (candidates dates docs) _) as [[|] w2]; reflexivity.
Qed.

Lemma posts_app (a b : list event) : posts (a ++ b) = posts a ++ posts b.
Proof. unfold posts. apply flat_map_app. Qed.

Lemma notifications_app (a b : list event) :
  notifications (a ++ b) = notifications a ++ notifications b.
Proof. unfold notifications. apply flat_map_app. Qed.

Lemma posts_failed (E : env) (cs : list (ustr * doctor)) :
  posts (flat_map (fun c => [EPost (form_data (cand_data E c)); ESleep 2]) cs) =
  map (fun c => form_data (cand_data E c)) cs.
Proof.
  induction cs as [|c cs IH]; [reflexivity|].
  cbn [flat_map]. rewrite posts_app, IH. reflexivity.
Qed.

Lemma notifications_failed (E : env) (cs : list (ustr * doctor)) :
  notifications (flat_map (fun c => [EPost (form_data (cand_data E c)); ESleep 2]) cs) = [].
Proof.
  induction cs as [|c cs IH]; [reflexivity|].
  cbn [flat_map]. rewrite notifications_app, IH. reflexivity.
Qed.

(** C7: past the guard and the session set-up, the run posts the
    candidates in the order of [candidates] (dates outer, doctors inner);
    at the first success it stops, having posted exactly the candidates up
    to that one and notified once, with that candidate's result. *)
Theorem batch_registration_first_success_order (E : env) (dates : list ustr)
  (docs : list doctor) (w : world) :
  fst (should_skip_check fromiso (e_writable E) (w_clock w) (w_store w)) = false ->
  e_get E init_url = true -> e_get E register_action_url = true ->
  (Forall (fun c => truthy (r_success (cand_result extract E c)) = false)
     (candidates dates docs) ->
   fst (batch_registration_with fromiso iso extract E dates docs w) = u8 "no_availability" /\
   posts (w_trace (snd (batch_registration_with fromiso iso extract E dates docs w))) =
   posts (w_trace w) ++ map (fun c => form_data (cand_data E c)) (candidates dates docs) /\
   notifications (w_trace (snd (batch_registration_with fromiso iso extract E dates docs w))) =
   notifications (w_trace w)) /\
  (forall pre c post,
   candidates dates docs = pre ++ c :: post ->
   Forall (fun c' => truthy (r_success (cand_result extract E c')) = false) pre ->
   truthy (r_success (cand_result extract E c)) = true ->
   fst (batch_registration_with fromiso iso extract E dates docs w) = u8 "success" /\
   posts (w_trace (snd (batch_registration_with fromiso iso extract E dates docs w))) =
   posts (w_trace w) ++ map (fun c' => form_data (cand_data E c')) (pre ++ [c]) /\
   notifications (w_trace (snd (batch_registration_with fromiso iso extract E dates docs w))) =
   notifications (w_trace w) ++ [cand_result extract E c]).
Proof.
  intros Hskip Hg1 Hg2.
  rewrite (batch_registration_with_past_guard _ _ _ _ Hskip Hg1 Hg2).
  split.
  - intros Hall. rewrite (try_list_all_fail _ _ _ Hall). cbv beta iota.
    cbn [fst snd w_trace].
    rewrite !posts_app, !notifications_app, posts_failed, notifications_failed.
    simpl. rewrite !app_nil_r. repeat split; reflexivity.
  - intros pre c post Hcand Hpre Hc. rewrite Hcand.
    rewrite (try_list_first_success _ _ _ _ _ Hpre Hc), on_success_eq. cbv beta iota.
    cbn [fst snd w_trace].
    rewrite !posts_app, !notifications_app, posts_failed, notifications_failed, map_app.
    simpl. rewrite !app_nil_r. repeat split; reflexivity.
Qed.

End Loop.

Lemma batch_registration_first_success_order_witness :
  candidates [day_1] [doctor_1; doctor_2] = [(day_1, doctor_1)] ++ [(day_1, doctor_2)] /\
  r_full (cand_result sample_extract env_d1_full (day_1, doctor_1)) = Some true /\
  fst (batch_registration_with sample_fromisoformat sample_isoformat sample_extract
         env_d1_full [day_1] [doctor_1; doctor_2] (start_world None)) = u8 "success" /\
  posts (w_trace (snd (batch_registration_with sample_fromisoformat sample_isoformat
                         sample_extract env_d1_full [day_1] [doctor_1; doctor_2]
                         (start_world None)))) =
  [form_data (cand_data env_d1_full (day_1, doctor_1));
   form_data (cand_data env_d1_full (day_1, doctor_2))] /\
  notifications (w_trace (snd (batch_registration_with sample_fromisoformat
                                 sample_isoformat sample_extract env_d1_full [day_1]
                                 [doctor_1; doctor_2] (start_world None)))) =
  [cand_result sample_extract env_d1_full (day_1, doctor_2)].
Proof.
  assert (Hskip : fst (should_skip_check sample_fromisoformat (e_writable env_d1_full)
                         (w_clock (start_world None)) (w_store (start_world None))) = false)
    by reflexivity.
  assert (Hpre : Forall (fun c' => truthy (r_success (cand_result sample_extract env_d1_full c'))
                                   = false) [(day_1, doctor_1)])
    by (apply Forall_cons; [vm_compute; reflexivity | apply Forall_nil]).
  assert (Hc : truthy (r_success (cand_result sample_extract env_d1_full (day_1, doctor_2)))
               = true) by (vm_compute; reflexivity).
  destruct (batch_registration_first_success_order sample_fromisoformat sample_isoformat
              sample_extract env_d1_full [day_1] [doctor_1; doctor_2] (start_world None)
              Hskip eq_refl eq_refl) as [_ Hsucc].
  destruct (Hsucc [(day_1, doctor_1)] (day_1, doctor_2) [] eq_refl Hpre Hc)
    as (H1 & H2 & H3).
  split; [reflexivity|]. split; [vm_compute; reflexivity|].
  exact (conj H1 (conj H2 H3)).
Defined.

(** ** Whole runs *)

(** C2 (counterexample): the first date succeeds but no SMTP server is
    configured; the run answers ["success"] after one notification attempt
    and the state file is never written, so no pause is set. *)
Lemma C2_no_cooldown_without_mail :
  fst (batch_registration sample_fromisoformat sample_isoformat sample_extract
         env_no_smtp (start_world None)) = u8 "success" /\
  List.length (notifications (w_trace (snd (batch_registration sample_fromisoformat
     sample_isoformat sample_extract env_no_smtp (start_world None))))) = 1%nat /\
  w_store (snd (batch_registration sample_fromisoformat sample_isoformat sample_extract
                  env_no_smtp (start_world None))) = None.
Proof. repeat split; vm_compute; reflexivity. Qed.

(** C4 (counterexample): every attempt is full, yet the run ends by saving
    the state with [last_check] set. *)
Lemma C4_last_check_written :
  fst (batch_registration sample_fromisoformat sample_isoformat sample_extract
         env_all_full (start_world (Some default_state))) = u8 "no_availability" /\
  w_store (snd (batch_registration sample_fromisoformat sample_isoformat sample_extract
                  env_all_full (start_world (Some default_state)))) =
  Some (set_last_check (u8 "2025-12-17T10:00:06") default_state) /\
  Some (set_last_check (u8 "2025-12-17T10:00:06") default_state) <> Some default_state.
Proof. refine (conj _ (conj _ _)); vm_compute; [reflexivity | reflexivity | discriminate]. Qed.

(** C5 (counterexample): the session GETs fail; [batch_registration]
    answers ["init_failed"] and the process still exits with 0. *)
Lemma C5_session_failure_exits_zero :
  fst (batch_registration sample_fromisoformat sample_isoformat sample_extract
         env_no_session (start_world None)) = u8 "init_failed" /\
  fst (process_exit_code sample_fromisoformat sample_isoformat sample_extract
         ok_os_env env_no_session (start_world None)) = 0.
Proof. split; vm_compute; reflexivity. Qed.

Section Runs.

Variable fromiso : ustr -> option datetime.
Variable iso : Z -> ustr.
Variable extract : document -> ustr -> result.

(** C2 (amended): on the first success the run notifies once and answers
    ["success"]; the cooldown (pause two hours ahead, notification time,
    count plus one) is saved only when the notification was delivered,
    otherwise the file stays as the guard left it. *)
Theorem batch_registration_success_cooldown (E : env) (dates : list ustr)
  (docs : list doctor) (w : world) pre c post :
  fst (should_skip_check fromiso (e_writable E) (w_clock w) (w_store w)) = false ->
  e_get E init_url = true -> e_get E register_action_url = true ->
  candidates dates docs = pre ++ c :: post ->
  Forall (fun c' => truthy (r_success (cand_result extract E c')) = false) pre ->
  truthy (r_success (cand_result extract E c)) = true ->
  fst (batch_registration_with fromiso iso extract E dates docs w) = u8 "success" /\
  notifications (w_trace (snd (batch_registration_with fromiso iso extract E dates docs w))) =
  notifications (w_trace w) ++ [cand_result extract E c] /\
  w_store (snd (batch_registration_with fromiso iso extract E dates docs w)) =
  (let s1 := snd (should_skip_check fromiso (e_writable E) (w_clock w) (w_store w)) in
   let t := w_clock w + 2 * Z.of_nat (List.length pre) in
   if notification_sent E then
     save_state (e_writable E)
       (mkCooldown (Some (iso t)) (Some (iso (t + 7200)))
          (notification_count (load_state s1) + 1) (last_check (load_state s1))) s1
   else s1).
Proof.
  intros Hskip Hg1 Hg2 Hcand Hpre Hc.
  destruct (proj2 (batch_registration_first_success_order fromiso iso extract E dates docs w
                     Hskip Hg1 Hg2) pre c post Hcand Hpre Hc) as (H1 & _ & H3).
  refine (conj H1 (conj H3 _)).
  rewrite (batch_registration_with_past_guard _ _ _ _ _ _ _ Hskip Hg1 Hg2), Hcand.
  rewrite (try_list_first_success _ _ _ _ _ _ _ Hpre Hc), on_success_eq.
  reflexivity.
Qed.

(** C4 (amended): failed attempts never touch the state file; when every
    candidate fails, the run ends by saving the state it loads with only
    [last_check] set to the current time. *)
Theorem batch_registration_no_success_state (E : env) (dates : list ustr)
  (docs : list doctor) (w : world) :
  fst (should_skip_check fromiso (e_writable E) (w_clock w) (w_store w)) = false ->
  e_get E init_url = true -> e_get E register_action_url = true ->
  Forall (fun c => truthy (r_success (cand_result extract E c)) = false)
    (candidates dates docs) ->
  (forall w1, w_store (snd (try_dates iso extract E dates docs w1)) = w_store w1) /\
  fst (batch_registration_with fromiso iso extract E dates docs w) = u8 "no_availability" /\
  w_store (snd (batch_registration_with fromiso iso extract E dates docs w)) =
  (let s1 := snd (should_skip_check fromiso (e_writable E) (w_clock w) (w_store w)) in
   save_state (e_writable E)
     (set_last_check (iso (w_clock w + 2 * Z.of_nat (List.length (candidates dates docs))))
        (load_state s1)) s1).
Proof.
  intros Hskip Hg1 Hg2 Hall. split.
  - intros w1. rewrite try_dates_eq, (try_list_all_fail _ _ _ _ _ Hall). reflexivity.
  - rewrite (batch_registration_with_past_guard _ _ _ _ _ _ _ Hskip Hg1 Hg2).
    rewrite (try_list_all_fail _ _ _ _ _ Hall).
    split; reflexivity.
Qed.

(** C9: [batch_registration] answers one of four strings. *)
Theorem batch_registration_result_closed (E : env) (w : world) :
  In (fst (batch_registration fromiso iso extract E w))
    [u8 "skipped"; u8 "init_failed"; u8 "success"; u8 "no_availability"].
Proof.
  unfold batch_registration, batch_registration_with, bind, should_skip_checkM.
  destruct (should_skip_check fromiso (e_writable E) (w_clock w) (w_store w)) as [[|] s1].
  - simpl. auto.
  - destruct (init_session E _) as [[|] w2]; [|simpl; auto].
    cbn [negb]. destruct (try_dates iso extract E _ _ w2) as [[|] w3].
    + simpl. auto.
    + unfold load, now, save, ret. simpl. auto.
Qed.

(** C5 (amended): the exit status is 0 whenever the registrar is built,
    whatever [batch_registration] answers ([init_failed] included); it is 1
    only when [SMTP_PORT] is not an integer or [MACKAY_ID_NUMBER] /
    [MACKAY_BIRTHDAY] is missing or empty. *)
Theorem main_exit_code (o : os_env) (E : env) (w : world) :
  fst (process_exit_code fromiso iso extract o E w) =
  if smtp_port_is_int o && present (getenv_id_number o) && present (getenv_birthday o)
  then 0 else 1.
Proof.
  unfold process_exit_code.
  destruct (smtp_port_is_int o), (present (getenv_id_number o)),
    (present (getenv_birthday o)); simpl; try reflexivity.
  destruct (batch_registration fromiso iso extract E w). reflexivity.
Qed.

End Runs.

Lemma batch_registration_success_cooldown_witness :
  fst (batch_registration_with sample_fromisoformat sample_isoformat sample_extract
         env_d1_full [day_1] [doctor_2] (start_world None)) = u8 "success" /\
  w_store (snd (batch_registration_with sample_fromisoformat sample_isoformat sample_extract
                  env_d1_full [day_1] [doctor_2] (start_world None))) =
  Some (mkCooldown (Some (sample_isoformat t_morning))
          (Some (sample_isoformat (t_morning + 7200))) 1 None).
Proof.
  assert (Hskip : fst (should_skip_check sample_fromisoformat (e_writable env_d1_full)
                         (w_clock (start_world None)) (w_store (start_world None))) = false)
    by reflexivity.
  assert (Hc : truthy (r_success (cand_result sample_extract env_d1_full (day_1, doctor_2)))
               = true) by (vm_compute; reflexivity).
  destruct (batch_registration_success_cooldown sample_fromisoformat sample_isoformat
              sample_extract env_d1_full [day_1] [doctor_2] (start_world None)
              [] (day_1, doctor_2) [] Hskip eq_refl eq_refl eq_refl (Forall_nil _) Hc)
    as (H1 & _ & H3).
  split; [exact H1|]. rewrite H3. vm_compute. reflexivity.
Defined.

Lemma batch_registration_no_success_state_witness :
  fst (batch_registration sample_fromisoformat sample_isoformat sample_extract
         env_all_full (start_world (Some default_state))) = u8 "no_availability" /\
  w_store (snd (batch_registration sample_fromisoformat sample_isoformat sample_extract
                  env_all_full (start_world (Some default_state)))) =
  Some (set_last_check (sample_isoformat (t_morning + 6)) default_state).
Proof.
  assert (Hskip : fst (should_skip_check sample_fromisoformat (e_writable env_all_full)
                         (w_clock (start_world (Some default_state)))
                         (w_store (start_world (Some default_state)))) = false)
    by reflexivity.
  assert (Hall : Forall (fun c => truthy (r_success (cand_result sample_extract env_all_full c))
                                  = false) (candidates dates_to_try doctors_to_try)).
  { unfold candidates, dates_to_try, doctors_to_try. simpl.
    repeat (apply Forall_cons; [vm_compute; reflexivity|]). apply Forall_nil. }
  destruct (batch_registration_no_success_state sample_fromisoformat sample_isoformat
              sample_extract env_all_full dates_to_try doctors_to_try
              (start_world (Some default_state)) Hskip eq_refl eq_refl Hall)
    as (_ & H2 & H3).
  split; [exact H2|]. unfold batch_registration. rewrite H3. vm_compute. reflexivity.
Defined.
(** ** The extraction of a success page *)

Lemma contains_app_r (p pre t : ustr) :
  contains p t = true -> contains p (pre ++ t) = true.
Proof.
  intros H. induction pre as [|x pre IH]; [exact H|].
  simpl. rewrite IH. apply orb_true_r.
Qed.

Lemma prefixb_app (p t : ustr) : prefixb p (p ++ t) = true.
Proof. induction p as [|x p IH]; [reflexivity|]. simpl. rewrite Z.eqb_refl. exact IH. Qed.

Lemma contains_app_l (p t : ustr) : contains p (p ++ t) = true.
Proof. destruct p; [destruct t; reflexivity|]. simpl. rewrite Z.eqb_refl, prefixb_app. reflexivity. Qed.

Lemma prefixb_eq (p s : ustr) : prefixb p s = true -> exists t, s = p ++ t.
Proof.
  revert s. induction p as [|x p IH]; intros s H; [exists s; reflexivity|].
  destruct s as [|y s]; [discriminate|]. simpl in H.
  apply andb_prop in H as [Hxy H]. apply Z.eqb_eq in Hxy. subst y.
  destruct (IH s H) as [t ->]. exists t. reflexivity.
Qed.

Lemma lstrip_suffix (s : ustr) : exists pre, s = pre ++ lstrip s.
Proof.
  induction s as [|c s [pre IH]]; [exists []; reflexivity|].
  simpl. destruct (is_space c).
  - exists (c :: pre). simpl. rewrite <- IH. reflexivity.
  - exists []. reflexivity.
Qed.

Lemma nonspace_run_spec (s : ustr) :
  forallb (fun c => negb (is_space c)) (nonspace_run s) = true /\
  exists t, s = nonspace_run s ++ t.
Proof.
  induction s as [|c s [IH1 [t IH2]]]; [split; [reflexivity | exists []; reflexivity]|].
  simpl. destruct (is_space c) eqn:Hc.
  - split; [reflexivity | exists (c :: s); reflexivity].
  - simpl. rewrite Hc, IH1. split; [reflexivity|]. exists t. simpl. rewrite <- IH2. reflexivity.
Qed.

(** What [\s*([^\s]+)] captures is a non-empty run without whitespace
    found in the input. *)
Lemma spaces_then_word_spec (s g : ustr) :
  spaces_then_word s = Some g ->
  g <> [] /\ forallb (fun c => negb (is_space c)) g = true /\ contains g s = true.
Proof.
  unfold spaces_then_word. destruct (nonspace_run_spec (lstrip s)) as [H1 [t H2]].
  destruct (lstrip_suffix s) as [pre Hpre].
  destruct (nonspace_run (lstrip s)) as [|x r] eqn:E; intros H; [discriminate|].
  injection H as <-.
  refine (conj (fun H => _) (conj H1 _)); [discriminate|].
  rewrite Hpre at 1. apply contains_app_r. rewrite H2. apply contains_app_l.
Qed.

Lemma label_tail_spec (s g : ustr) :
  label_tail s = Some g ->
  g <> [] /\ forallb (fun c => negb (is_space c)) g = true /\ contains g s = true.
Proof.
  unfold label_tail. destruct s as [|c r]; [discriminate|].
  destruct (is_colon c).
  - destruct (spaces_then_word r) as [g'|] eqn:E.
    + intros H. injection H as <-. destruct (spaces_then_word_spec _ _ E) as (? & ? & H3).
      refine (conj _ (conj _ _)); auto. apply (contains_app_r _ [c]), H3.
    + apply spaces_then_word_spec.
  - apply spaces_then_word_spec.
Qed.

Lemma first_some_In {A B : Type} (f : A -> option B) (l : list A) (y : B) :
  first_some f l = Some y -> exists x, In x l /\ f x = Some y.
Proof.
  induction l as [|x l IH]; [discriminate|]. simpl.
  destruct (f x) eqn:E.
  - intros H. injection H as <-. exists x. auto.
  - intros H. destruct (IH H) as (x' & ? & ?). exists x'. auto.
Qed.

Section DateShape.

Variable is_decimal : Z -> bool.

Lemma month_alts_spec (s m r : ustr) :
  In (m, r) (month_alts is_decimal s) ->
  exists mm sp, m = mm ++ [sp] /\ (1 <= List.length mm <= 2)%nat /\
    forallb is_decimal mm = true /\ is_sep sp = true /\ s = m ++ r.
Proof.
  unfold month_alts. intros H. apply in_app_or in H as [H|H].
  - destruct s as [|a [|b [|c s']]]; try contradiction.
    destruct (is_decimal a && is_decimal b && is_sep c) eqn:E; [|contradiction].
    destruct H as [H|[]]. injection H as <- <-.
    apply andb_prop in E as [E Hc]. apply andb_prop in E as [Ha Hb].
    exists [a; b], c. simpl. rewrite Ha, Hb. repeat split; auto.
  - destruct s as [|a [|b s']]; try contradiction.
    destruct (is_decimal a && is_sep b) eqn:E; [|contradiction].
    destruct H as [H|[]]. injection H as <- <-.
    apply andb_prop in E as [Ha Hb].
    exists [a], b. simpl. rewrite Ha. repeat split; auto.
Qed.

Lemma digits12_spec (s dd : ustr) :
  digits12 is_decimal s = Some dd ->
  (1 <= List.length dd <= 2)%nat /\ forallb is_decimal dd = true /\ exists t, s = dd ++ t.
Proof.
  unfold digits12. destruct s as [|a [|b s']]; [discriminate| |].
  - destruct (is_decimal a) eqn:Ha; [|discriminate]. intros H. injection H as <-.
    simpl. rewrite Ha. repeat split; auto. exists []. reflexivity.
  - destruct (is_decimal a) eqn:Ha; [|discriminate].
    destruct (is_decimal b) eqn:Hb; intros H; injection H as <-; simpl; rewrite ?Ha, ?Hb;
      repeat split; auto.
    + exists s'. reflexivity.
    + exists (b :: s'). reflexivity.
Qed.

Lemma date_at_spec (s g : ustr) :
  date_at is_decimal s = Some g ->
  (exists t, s = g ++ t) /\
  exists y m dd s1 s2, g = y ++ [s1] ++ m ++ [s2] ++ dd /\
    List.length y = 4%nat /\ (1 <= List.length m <= 2)%nat /\
    (1 <= List.length dd <= 2)%nat /\
    forallb is_decimal (y ++ m ++ dd) = true /\ is_sep s1 = true /\ is_sep s2 = true.
Proof.
  unfold date_at. destruct s as [|y1 [|y2 [|y3 [|y4 [|sp r]]]]]; try discriminate.
  destruct (is_decimal y1 && is_decimal y2 && is_decimal y3 && is_decimal y4 && is_sep sp)
    eqn:E; [|discriminate].
  intros H. apply first_some_In in H as ([m r'] & Hin & H). simpl in H.
  destruct (digits12 is_decimal r') as [dd|] eqn:Hd; [|discriminate].
  injection H as <-.
  destruct (month_alts_spec _ _ _ Hin) as (mm & s2 & -> & Hlm & Hmm & Hs2 & ->).
  destruct (digits12_spec _ _ Hd) as (Hld & Hdd & t & ->).
  repeat (apply andb_prop in E as [E ?]).
  split.
  - exists t. simpl. rewrite <- !app_assoc. reflexivity.
  - exists [y1; y2; y3; y4], mm, dd, sp, s2.
    refine (conj _ (conj eq_refl (conj Hlm (conj Hld (conj _ (conj H Hs2)))))).
    + simpl. rewrite <- !app_assoc. reflexivity.
    + simpl. rewrite E, H2, H1, H0, forallb_app, Hmm, Hdd. reflexivity.
Qed.

End DateShape.

Lemma get_set_detail (k k' : detail_key) (v : ustr) (r : result) :
  get_detail k (set_detail k' v r) =
  if (match k, k' with
      | KDate, KDate | KDepartment, KDepartment | KDoctor, KDoctor => true
      | _, _ => false end) then Some v else get_detail k r.
Proof. destruct k, k'; reflexivity. Qed.

Lemma pattern_step_keeps (t : ustr) (r : result) pk (k : detail_key) (v : ustr) :
  get_detail k r = Some v -> v <> [] ->
  get_detail k (pattern_step t r pk) = Some v.
Proof.
  intros H Hv. unfold pattern_step. destruct (fst pk t) as [g|]; [|exact H].
  destruct (blank (get_detail (snd pk) r)) eqn:Hb; [|exact H].
  rewrite get_set_detail. destruct k, (snd pk); try exact H;
    simpl in Hb, H; rewrite H in Hb; (destruct v; [contradiction Hv; reflexivity | discriminate]).
Qed.

Lemma skipn_length_app (l r : ustr) : skipn (List.length l) (l ++ r) = r.
Proof. induction l as [|x l IH]; [reflexivity|]. exact IH. Qed.

Lemma search_label_spec (label text g : ustr) :
  search_label label text = Some g ->
  exists pre rest, text = pre ++ label ++ rest /\ label_tail rest = Some g.
Proof.
  assert (Hpos : forall s,
    (if prefixb label s then label_tail (skipn (List.length label) s) else None) = Some g ->
    exists rest, s = label ++ rest /\ label_tail rest = Some g).
  { intros s H. destruct (prefixb label s) eqn:Hp; [|discriminate].
    destruct (prefixb_eq _ _ Hp) as [rest ->]. rewrite skipn_length_app in H.
    exists rest. auto. }
  induction text as [|c t IH]; intros H; simpl in H;
    destruct (if prefixb label _ then _ else None) as [g'|] eqn:E.
  - injection H as <-. destruct (Hpos _ E) as (rest & Hs & Hr). exists [], rest. auto.
  - discriminate.
  - injection H as <-. destruct (Hpos _ E) as (rest & Hs & Hr). exists [], rest. auto.
  - destruct (IH H) as (pre & rest & -> & Hr). exists (c :: pre), rest. auto.
Qed.

Lemma search_date_suffix (is_decimal : Z -> bool) (text g : ustr) :
  search_date is_decimal text = Some g ->
  exists pre rest, text = pre ++ rest /\ date_at is_decimal rest = Some g.
Proof.
  induction text as [|c t IH]; intros H; [discriminate|].
  cbn [search_date] in H. destruct (date_at is_decimal (c :: t)) as [g'|] eqn:E.
  - injection H as <-. exists [], (c :: t). auto.
  - destruct (IH H) as (pre & rest & -> & Hr). exists (c :: pre), rest. auto.
Qed.

Lemma fold_strong_item_keeps (l : list (node * list node)) (r : result) :
  r_success (fold_left strong_item l r) = r_success r /\
  r_full (fold_left strong_item l r) = r_full r /\
  r_error (fold_left strong_item l r) = r_error r.
Proof.
  revert r. induction l as [|x l IH]; intros r; [auto|].
  simpl. destruct (IH (strong_item r x)) as (H1 & H2 & H3). rewrite H1, H2, H3.
  unfold strong_item.
  destruct (_ && _); [destruct KDate; auto|].
  destruct (_ && _); [auto|]. destruct (_ && _); auto.
Qed.

Lemma fold_pattern_step_keeps (t : ustr) (l : list ((ustr -> option ustr) * detail_key))
  (r : result) :
  r_success (fold_left (pattern_step t) l r) = r_success r /\
  r_full (fold_left (pattern_step t) l r) = r_full r /\
  r_error (fold_left (pattern_step t) l r) = r_error r.
Proof.
  revert r. induction l as [|x l IH]; intros r; [auto|].
  simpl. destruct (IH (pattern_step t r x)) as (H1 & H2 & H3). rewrite H1, H2, H3.
  unfold pattern_step. destruct (fst x t); [|auto].
  destruct (blank _); [|auto]. destruct (snd x); auto.
Qed.

Lemma fold_pattern_step_keeps_detail (t : ustr) (l : list ((ustr -> option ustr) * detail_key))
  (r : result) (k : detail_key) (v : ustr) :
  get_detail k r = Some v -> v <> [] ->
  get_detail k (fold_left (pattern_step t) l r) = Some v.
Proof.
  revert r. induction l as [|x l IH]; intros r H Hv; [exact H|].
  simpl. apply IH; [|exact Hv]. apply pattern_step_keeps; assumption.
Qed.

(** X1: every value captured by one of the label expressions
    ([看診日期], [科別], [醫師] followed by an optional colon) is a
    non-empty run of non-whitespace code points that occurs after an
    occurrence of the label in the page text. *)
Theorem search_label_capture (label text g : ustr) :
  search_label label text = Some g ->
  g <> [] /\ forallb (fun c => negb (is_space c)) g = true /\
  exists pre rest, text = pre ++ label ++ rest /\ contains g rest = true.
Proof.
  intros H. destruct (search_label_spec _ _ _ H) as (pre & rest & Ht & Hr).
  destruct (label_tail_spec _ _ Hr) as (H1 & H2 & H3).
  refine (conj H1 (conj H2 _)). exists pre, rest. auto.
Qed.

(** X2: the date expression captures text of the form four digits, [-] or
    [/], one or two digits, [-] or [/], one or two digits, and that text
    occurs in the page text. *)
Theorem search_date_capture (is_decimal : Z -> bool) (text g : ustr) :
  search_date is_decimal text = Some g ->
  contains g text = true /\
  exists y m dd s1 s2, g = y ++ [s1] ++ m ++ [s2] ++ dd /\
    List.length y = 4%nat /\ (1 <= List.length m <= 2)%nat /\
    (1 <= List.length dd <= 2)%nat /\
    forallb is_decimal (y ++ m ++ dd) = true /\ is_sep s1 = true /\ is_sep s2 = true.
Proof.
  intros H. destruct (search_date_suffix _ _ _ H) as (pre & rest & -> & Hr).
  destruct (date_at_spec _ _ _ Hr) as ([t ->] & Hshape).
  split; [|exact Hshape]. apply contains_app_r, contains_app_l.
Qed.

(** X3: a date, department or doctor already read after a [<strong>] label
    with a non-empty value is never replaced by the regular expressions. *)
Theorem extract_details_keeps_strong_value (is_decimal : Z -> bool) (d : document)
  (page_text : ustr) (k : detail_key) (v : ustr) :
  get_detail k (strong_fields d) = Some v -> v <> [] ->
  get_detail k (extract_details_from_page is_decimal d page_text) = Some v.
Proof.
  intros H Hv. unfold extract_details_from_page.
  assert (Hf := fold_pattern_step_keeps_detail page_text (patterns is_decimal) _ k v H Hv).
  destruct k; exact Hf.
Qed.

(** X4: when no [<strong>] label gave a non-empty date, the appointment
    date is the value after [看診日期] if there is one, otherwise the first
    numeric date of the page text; a numeric date never overrides the
    labelled one. *)
Theorem extract_details_date_source (is_decimal : Z -> bool) (d : document)
  (page_text : ustr) :
  blank (r_appointment_date (strong_fields d)) = true ->
  r_appointment_date (extract_details_from_page is_decimal d page_text) =
  match search_label (u8 "看診日期") page_text with
  | Some g => Some g
  | None =>
      match search_date is_decimal page_text with
      | Some g => Some g
      | None => r_appointment_date (strong_fields d)
      end
  end.
Proof.
  intros Hb. unfold extract_details_from_page, patterns. cbn [fold_left].
  assert (Hstep : forall r f, r_appointment_date (pattern_step page_text r (f, KDate)) =
            match f page_text with
            | Some g => if blank (r_appointment_date r) then Some g else r_appointment_date r
            | None => r_appointment_date r
            end).
  { clear Hb. intros r f. unfold pattern_step. cbn [fst snd].
    cbn [get_detail set_detail].
    destruct (f page_text); [destruct (blank (r_appointment_date r))|]; reflexivity. }
  assert (Hd : forall r, r_appointment_date
                 (pattern_step page_text (pattern_step page_text r
                    (search_label (u8 "科別"), KDepartment))
                    (search_label (u8 "醫師"), KDoctor)) = r_appointment_date r).
  { clear Hb Hstep. intros r. unfold pattern_step. cbn [fst snd].
    destruct (search_label (u8 "科別") page_text), (search_label (u8 "醫師") page_text);
      repeat match goal with |- context [if ?b then _ else _] => destruct b end;
      reflexivity. }
  cbn [r_appointment_date set_status]. rewrite Hstep, Hd, Hstep, Hb.
  destruct (search_label (u8 "看診日期") page_text) as [g|] eqn:Hg.
  - destruct (search_label_spec _ _ _ Hg) as (? & ? & _ & Hr).
    destruct g as [|c0 g]; [contradiction (proj1 (label_tail_spec _ _ Hr)); reflexivity|].
    destruct (search_date is_decimal page_text); reflexivity.
  - rewrite Hb. reflexivity.
Qed.

(** ** The classifier on any page *)

Lemma classify_status_spec (r : result) (s : ustr) :
  r_status r = Some s ->
  r_status (classify_status r) = Some s /\
  (((contains (u8 "滿號") s || contains (u8 "請改掛") s) = true /\
    r_success (classify_status r) = Some false /\ r_full (classify_status r) = Some true) \/
   ((contains (u8 "滿號") s || contains (u8 "請改掛") s) = false /\
    (contains (u8 "成功") s || contains (u8 "已掛號") s) = true /\
    r_success (classify_status r) = Some true /\ r_full (classify_status r) = Some false) \/
   ((contains (u8 "滿號") s || contains (u8 "請改掛") s) = false /\
    (contains (u8 "成功") s || contains (u8 "已掛號") s) = false /\
    r_success (classify_status r) = Some false /\ r_full (classify_status r) = Some false)).
Proof.
  intros H. unfold classify_status. rewrite H.
  destruct (contains (u8 "滿號") s || contains (u8 "請改掛") s) eqn:E1.
  - split; [exact H|]. left. auto.
  - destruct (contains (u8 "成功") s || contains (u8 "已掛號") s) eqn:E2;
      (split; [exact H|]); right; [left|right]; auto.
Qed.

Lemma myprint_rule_spec (d : document) (r : result) :
  myprint_rule d = Some r -> exists r0 s, r_status r0 = Some s /\ r = classify_status r0.
Proof.
  unfold myprint_rule. destruct (find_myprint d) as [box|]; [|discriminate].
  destruct (r_status (myprint_fields box)) as [s|] eqn:E; [|discriminate].
  intros H. injection H as <-. eauto.
Qed.

Lemma table_rule_spec (ts : list node) (r : result) :
  table_rule ts = Some r -> exists r0 s, r_status r0 = Some s /\ r = classify_status r0.
Proof.
  induction ts as [|t ts IH]; [discriminate|]. simpl.
  destruct (_ || _); [|exact IH].
  destruct (r_status (table_fields t)) as [s|] eqn:E; [|exact IH].
  intros H. injection H as <-. eauto.
Qed.

(** The outcome of a block rule never has both flags set. *)
Lemma classify_exclusive (r0 : result) (s : ustr) :
  r_status r0 = Some s ->
  (truthy (r_success (classify_status r0)) = true -> r_full (classify_status r0) = Some false) /\
  (truthy (r_full (classify_status r0)) = true -> r_success (classify_status r0) = Some false).
Proof.
  intros H. destruct (classify_status_spec _ _ H) as (_ & [(_ & -> & ->)|[(_ & _ & -> & ->)|
    (_ & _ & -> & ->)]]); split; intros; (reflexivity || discriminate).
Qed.

Lemma parse_tail_flags (d : document) (t : ustr) :
  (truthy (r_success (parse_tail d t)) = true -> r_full (parse_tail d t) = Some false) /\
  (truthy (r_full (parse_tail d t)) = true -> r_success (parse_tail d t) = Some false).
Proof.
  unfold parse_tail.
  destruct (table_rule _) as [r|] eqn:Ht.
  - destruct (table_rule_spec _ _ Ht) as (r0 & s & Hs & ->). exact (classify_exclusive _ _ Hs).
  - destruct (filter is_error_markup (soup_elems d)); split; intros; (reflexivity || discriminate).
Qed.

Lemma in_replace_fuel (c x : Z) (new : ustr) (f : nat) (s : ustr) :
  In x (replace_fuel f [c] new s) -> In x s \/ In x new.
Proof.
  revert s. induction f as [|f IH]; intros s H; [left; exact H|].
  destruct s as [|c' s]; [contradiction|]. simpl in H.
  destruct ((c =? c') && true).
  - apply in_app_or in H as [H|H]; [right; exact H|].
    destruct (IH s H) as [H'|H']; [left; right; exact H' | right; exact H'].
  - destruct H as [H|H]; [left; left; exact H|].
    destruct (IH s H) as [H'|H']; [left; right; exact H' | right; exact H'].
Qed.

Lemma replace_fuel_removes (c : Z) (new : ustr) (f : nat) (s : ustr) :
  (List.length s <= f)%nat -> ~ In c new -> ~ In c (replace_fuel f [c] new s).
Proof.
  revert s. induction f as [|f IH]; intros s Hl Hn.
  - destruct s; [intros []|simpl in Hl; lia].
  - destruct s as [|c' s]; [intros []|]. simpl in Hl. simpl.
    destruct (c =? c') eqn:E; simpl.
    + intros H. apply in_app_or in H as [H|H]; [exact (Hn H)|].
      exact (IH s ltac:(lia) Hn H).
    + intros [H|H]; [subst; rewrite Z.eqb_refl in E; discriminate|].
      exact (IH s ltac:(lia) Hn H).
Qed.

Lemma in_lstrip (x : Z) (s : ustr) : In x (lstrip s) -> In x s.
Proof.
  induction s as [|c s IH]; [auto|]. simpl. destruct (is_space c); [|auto].
  intros H. right. exact (IH H).
Qed.

Lemma in_strip (x : Z) (s : ustr) : In x (strip s) -> In x s.
Proof.
  unfold strip. intros H. apply in_rev, in_lstrip, in_rev, in_lstrip in H. exact H.
Qed.

Lemma in_firstn (A : Type) (n : nat) (l : list A) (x : A) : In x (firstn n l) -> In x l.
Proof.
  intros H. rewrite <- (firstn_skipn n l). apply in_or_app. left. exact H.
Qed.

(** X5: on a page carrying a success keyword (and with [last_response.html]
    writable), [parse_result] with the registrar's own extraction answers
    success, not full, no error, with the status [掛號成功]. *)
Theorem parse_result_success_page (is_decimal : Z -> bool) (writable : ustr -> bool)
  (d : document) :
  writable (u8 "last_response.html") = true ->
  any_in success_keywords (soup_text d) = true ->
  exists r, parse_result (extract_details_from_page is_decimal) writable d = Ok r /\
    r_success r = Some true /\ r_full r = Some false /\ r_error r = None /\
    r_status r = Some (u8 "掛號成功").
Proof.
  intros Hw Hs. unfold parse_result, write_file. rewrite Hw.
  eexists. split; [reflexivity|]. unfold parse_body. rewrite Hs.
  refine (conj eq_refl (conj eq_refl (conj _ eq_refl))).
  cbn [set_full set_success r_error]. unfold extract_details_from_page.
  cbn [set_status r_error].
  rewrite (proj2 (proj2 (fold_pattern_step_keeps _ _ _))).
  unfold strong_fields. rewrite (proj2 (proj2 (fold_strong_item_keeps _ _))). reflexivity.
Qed.

(** X6: whatever the page and the extraction, a result of [parse_result]
    that is a success is not full, and one that is full is not a
    success. *)
Theorem parse_result_success_full_exclusive (extract : document -> ustr -> result)
  (writable : ustr -> bool) (d : document) (r : result) :
  parse_result extract writable d = Ok r ->
  (truthy (r_success r) = true -> r_full r = Some false) /\
  (truthy (r_full r) = true -> r_success r = Some false).
Proof.
  unfold parse_result, write_file.
  destruct (writable (u8 "last_response.html")).
  - intros H. injection H as <-. unfold parse_body.
    destruct (any_in success_keywords _); [split; intros; (reflexivity || discriminate)|].
    destruct (any_in full_keywords _); [split; intros; (reflexivity || discriminate)|].
    destruct (first_in error_keywords _); [split; intros; (reflexivity || discriminate)|].
    destruct (myprint_rule d) as [r'|] eqn:Hm; [|apply parse_tail_flags].
    destruct (myprint_rule_spec _ _ Hm) as (r0 & s & Hs & ->).
    exact (classify_exclusive _ _ Hs).
  - destruct (writable (u8 "error_response.html")); [|discriminate].
    intros H. injection H as <-. split; intros; (reflexivity || discriminate).
Qed.

(** X7: the classifier reports a success only for a page whose text holds a
    success keyword, or, with no success or full keyword in the text, for a
    result block whose status contains [成功] or [已掛號] and neither [滿號]
    nor [請改掛]. *)
Theorem parse_body_success_reason (extract : document -> ustr -> result) (d : document) :
  truthy (r_success (parse_body extract d)) = true ->
  any_in success_keywords (soup_text d) = true \/
  (any_in full_keywords (soup_text d) = false /\
   exists s, r_status (parse_body extract d) = Some s /\
     (contains (u8 "滿號") s || contains (u8 "請改掛") s) = false /\
     (contains (u8 "成功") s || contains (u8 "已掛號") s) = true).
Proof.
  unfold parse_body.
  destruct (any_in success_keywords _) eqn:Hs; [left; reflexivity|].
  destruct (any_in full_keywords _) eqn:Hf; [discriminate|].
  destruct (first_in error_keywords _); [discriminate|].
  intros H. right. split; [reflexivity|].
  assert (Hc : forall r0 s, r_status r0 = Some s ->
    truthy (r_success (classify_status r0)) = true ->
    exists s', r_status (classify_status r0) = Some s' /\
      (contains (u8 "滿號") s' || contains (u8 "請改掛") s') = false /\
      (contains (u8 "成功") s' || contains (u8 "已掛號") s') = true).
  { intros r0 s Hst Ht. exists s.
    destruct (classify_status_spec _ _ Hst) as (H1 & [(_ & H2 & _)|[(H2 & H3 & _)|
      (_ & _ & H2 & _)]]).
    - rewrite H2 in Ht. discriminate.
    - auto.
    - rewrite H2 in Ht. discriminate. }
  destruct (myprint_rule d) as [r'|] eqn:Hm.
  - destruct (myprint_rule_spec _ _ Hm) as (r0 & s & Hst & ->). exact (Hc _ _ Hst H).
  - unfold parse_tail in *.
    destruct (table_rule _) as [r'|] eqn:Ht.
    + destruct (table_rule_spec _ _ Ht) as (r0 & s & Hst & ->). exact (Hc _ _ Hst H).
    + destruct (filter is_error_markup (soup_elems d)); discriminate.
Qed.

(** X8: a submission counts as a success only when the POST answered with a
    page, [last_response.html] could be written, and the classifier called
    that page a success: a timeout, a request error or an exception while
    parsing never does. *)
Theorem attempt_result_success_needs_page (extract : document -> ustr -> result)
  (E : env) (a : appointment_data) :
  truthy (r_success (attempt_result extract E a)) = true ->
  exists page, e_post E (form_data a) = RespOk page /\
    e_writable E (u8 "last_response.html") = true /\
    attempt_result extract E a = parse_body extract page.
Proof.
  unfold attempt_result. destruct (e_post E (form_data a)) as [|msg|page];
    try discriminate.
  unfold parse_result, write_file.
  destruct (e_writable E (u8 "last_response.html")) eqn:Hw.
  - intros _. exists page. auto.
  - destruct (e_writable E (u8 "error_response.html")); discriminate.
Qed.

(** X9: when no rule answers, the fallback error quotes at most 500 code
    points of the page text, with no line feed and no carriage return. *)
Theorem parse_body_fallback_excerpt (extract : document -> ustr -> result) (d : document) :
  any_in success_keywords (soup_text d) = false ->
  any_in full_keywords (soup_text d) = false ->
  first_in error_keywords (soup_text d) = None ->
  myprint_rule d = None ->
  table_rule (filter (has_tag (u8 "table")) (soup_elems d)) = None ->
  filter is_error_markup (soup_elems d) = [] ->
  exists p, parse_body extract d =
    error_result (u8 "無法解析結果，頁面內容: " ++ p ++ u8 "...") /\
    (List.length p <= 500)%nat /\ ~ In 10 p /\ ~ In 13 p.
Proof.
  intros H1 H2 H3 H4 H5 H6. unfold parse_body. rewrite H1, H2, H3, H4.
  unfold parse_tail. rewrite H5, H6.
  exists (text_preview (soup_text d)). refine (conj eq_refl (conj _ (conj _ _))).
  - apply firstn_le_length.
  - unfold text_preview, replace. intros H. apply in_firstn, in_strip in H.
    apply in_replace_fuel in H as [H|[]].
    exact (replace_fuel_removes 10 [32] _ _ (le_n _) ltac:(simpl; lia) H).
  - unfold text_preview, replace. intros H. apply in_firstn, in_strip in H.
    exact (replace_fuel_removes 13 [] _ _ (le_n _) (fun H => H) H).
Qed.


(** ** Runs, seen from outside *)


Lemma should_skip_check_true_store
  (fromiso : ustr -> option datetime) (writable : ustr -> bool) (now : Z) (s : store) :
  fst (should_skip_check fromiso writable now s) = true ->
  snd (should_skip_check fromiso writable now s) = s.
Proof.
  unfold should_skip_check.
  destruct (pause_until (load_state s)) as [p|]; [|discriminate].
  destruct (ustr_eqb p []); [discriminate|].
  destruct (fromiso p) as [[t aw]|]; simpl; [|discriminate].
  destruct aw; [discriminate|]. destruct (now <? t); [reflexivity | discriminate].
Qed.

Section Outside.

Variable fromiso : ustr -> option datetime.
Variable iso : Z -> ustr.
Variable extract : document -> ustr -> result.

Lemma batch_registration_skip_eq (E : env) (dates : list ustr) (docs : list doctor)
  (w : world) :
  fst (should_skip_check fromiso (e_writable E) (w_clock w) (w_store w)) = true ->
  batch_registration_with fromiso iso extract E dates docs w = (u8 "skipped", w).
Proof.
  intros H. assert (Hs := should_skip_check_true_store _ _ _ _ H).
  unfold batch_registration_with, should_skip_checkM, bind.
  destruct (should_skip_check fromiso (e_writable E) (w_clock w) (w_store w)) as [b s1].
  simpl in H, Hs. subst b s1. destruct w. reflexivity.
Qed.



(** X11: a run that the cooldown guard skips makes no request, sends no
    notification, does not sleep and leaves the state file and the clock
    as they were. *)
Theorem batch_registration_skipped_untouched (E : env) (dates : list ustr)
  (docs : list doctor) (w : world) :
  fst (should_skip_check fromiso (e_writable E) (w_clock w) (w_store w)) = true ->
  batch_registration_with fromiso iso extract E dates docs w = (u8 "skipped", w).
Proof. apply batch_registration_skip_eq. Qed.

(** X12: when the session set-up fails, the run answers ["init_failed"]
    after the GET of the index page, plus the GET of the registration page
    only if the first one succeeded; it posts no form, sends no
    notification and leaves the state file as the guard left it. *)
Theorem batch_registration_init_failed (E : env) (dates : list ustr)
  (docs : list doctor) (w : world) :
  fst (should_skip_check fromiso (e_writable E) (w_clock w) (w_store w)) = false ->
  e_get E init_url && e_get E register_action_url = false ->
  batch_registration_with fromiso iso extract E dates docs w =
  (u8 "init_failed",
   mkWorld (snd (should_skip_check fromiso (e_writable E) (w_clock w) (w_store w)))
     (w_clock w)
     (w_trace w ++ EGet init_url ::
      (if e_get E init_url then [EGet register_action_url] else []))).
Proof.
  intros Hskip Hg.
  unfold batch_registration_with, should_skip_checkM, bind.
  destruct (should_skip_check fromiso (e_writable E) (w_clock w) (w_store w))
    as [b s1]. simpl in Hskip. subst b.
  unfold init_session, emit, bind, ret. cbn [w_store w_clock w_trace].
  destruct (e_get E init_url); cbn [andb] in Hg.
  - rewrite Hg. simpl. rewrite <- app_assoc. reflexivity.
  - reflexivity.
Qed.



End Outside.

(** ** Running the extra properties *)

Lemma extract_details_keeps_strong_value_witness :
  get_detail KDate (strong_fields page_strong_date) = Some (u8 "2025/12/17") /\
  get_detail KDate (extract_details_from_page ascii_decimal page_strong_date
                      (soup_text page_strong_date)) = Some (u8 "2025/12/17").
Proof.
  assert (H : get_detail KDate (strong_fields page_strong_date) = Some (u8 "2025/12/17"))
    by (vm_compute; reflexivity).
  split; [exact H|].
  apply (extract_details_keeps_strong_value ascii_decimal page_strong_date
           (soup_text page_strong_date) KDate (u8 "2025/12/17") H).
  vm_compute. discriminate.
Defined.

Lemma extract_details_date_source_witness :
  blank (r_appointment_date (strong_fields page_text_date)) = true /\
  r_appointment_date (extract_details_from_page ascii_decimal page_text_date
                        (soup_text page_text_date)) = Some (u8 "2025/12/18").
Proof.
  assert (H : blank (r_appointment_date (strong_fields page_text_date)) = true)
    by (vm_compute; reflexivity).
  split; [exact H|].
  rewrite (extract_details_date_source ascii_decimal page_text_date
             (soup_text page_text_date) H).
  vm_compute. reflexivity.
Defined.

Lemma parse_result_success_page_witness :
  all_writable (u8 "last_response.html") = true /\
  any_in success_keywords (soup_text page_strong_date) = true /\
  exists r, parse_result (extract_details_from_page ascii_decimal) all_writable
              page_strong_date = Ok r /\
    r_success r = Some true /\ r_full r = Some false /\ r_error r = None /\
    r_status r = Some (u8 "掛號成功").
Proof.
  assert (H1 : all_writable (u8 "last_response.html") = true) by reflexivity.
  assert (H2 : any_in success_keywords (soup_text page_strong_date) = true)
    by (vm_compute; reflexivity).
  exact (conj H1 (conj H2 (parse_result_success_page ascii_decimal all_writable
                             page_strong_date H1 H2))).
Defined.

Lemma parse_result_success_full_exclusive_witness :
  parse_result sample_extract all_writable page_full = Ok full_result /\
  r_success full_result = Some false.
Proof.
  assert (H : parse_result sample_extract all_writable page_full = Ok full_result)
    by (vm_compute; reflexivity).
  split; [exact H|].
  apply (proj2 (parse_result_success_full_exclusive sample_extract all_writable page_full
                  full_result H)).
  reflexivity.
Defined.

Lemma parse_body_success_reason_witness :
  truthy (r_success (parse_body sample_extract page_success)) = true /\
  (any_in success_keywords (soup_text page_success) = true \/
   (any_in full_keywords (soup_text page_success) = false /\
    exists s, r_status (parse_body sample_extract page_success) = Some s /\
      (contains (u8 "滿號") s || contains (u8 "請改掛") s) = false /\
      (contains (u8 "成功") s || contains (u8 "已掛號") s) = true)).
Proof.
  assert (H : truthy (r_success (parse_body sample_extract page_success)) = true)
    by (vm_compute; reflexivity).
  exact (conj H (parse_body_success_reason sample_extract page_success H)).
Defined.

Lemma attempt_result_success_needs_page_witness :
  truthy (r_success (attempt_result sample_extract env_no_smtp
                       (cand_data env_no_smtp (day_1, doctor_1)))) = true /\
  exists page, e_post env_no_smtp (form_data (cand_data env_no_smtp (day_1, doctor_1)))
                 = RespOk page /\
    e_writable env_no_smtp (u8 "last_response.html") = true /\
    attempt_result sample_extract env_no_smtp (cand_data env_no_smtp (day_1, doctor_1)) =
    parse_body sample_extract page.
Proof.
  assert (H : truthy (r_success (attempt_result sample_extract env_no_smtp
                                   (cand_data env_no_smtp (day_1, doctor_1)))) = true)
    by (vm_compute; reflexivity).
  exact (conj H (attempt_result_success_needs_page sample_extract env_no_smtp _ H)).
Defined.

Lemma parse_body_fallback_excerpt_witness :
  exists p, parse_body sample_extract plain_page =
    error_result (u8 "無法解析結果，頁面內容: " ++ p ++ u8 "...") /\
    (List.length p <= 500)%nat /\ ~ In 10 p /\ ~ In 13 p.
Proof.
  apply parse_body_fallback_excerpt; vm_compute; reflexivity.
Defined.


Lemma batch_registration_skipped_untouched_witness :
  fst (should_skip_check sample_fromisoformat (e_writable env_d1_full) t_morning
         (Some paused_naive)) = true /\
  batch_registration sample_fromisoformat sample_isoformat sample_extract env_d1_full
    (start_world (Some paused_naive)) = (u8 "skipped", start_world (Some paused_naive)).
Proof.
  assert (H : fst (should_skip_check sample_fromisoformat (e_writable env_d1_full) t_morning
                     (Some paused_naive)) = true) by (vm_compute; reflexivity).
  split; [exact H|].
  exact (batch_registration_skipped_untouched sample_fromisoformat sample_isoformat
           sample_extract env_d1_full dates_to_try doctors_to_try
           (start_world (Some paused_naive)) H).
Defined.

Lemma batch_registration_init_failed_witness :
  batch_registration sample_fromisoformat sample_isoformat sample_extract env_no_session
    (start_world None) =
  (u8 "init_failed", mkWorld None t_morning [EGet init_url]).
Proof.
  unfold batch_registration.
  rewrite (batch_registration_init_failed sample_fromisoformat sample_isoformat
             sample_extract env_no_session dates_to_try doctors_to_try (start_world None)
             eq_refl eq_refl).
  reflexivity.
Defined.


Lemma search_label_capture_witness :
  search_label (u8 "科別") (u8 "看診科別： 小兒科 看診醫師：王") = Some (u8 "小兒科") /\
  u8 "小兒科" <> [].
Proof.
  assert (H : search_label (u8 "科別") (u8 "看診科別： 小兒科 看診醫師：王") =
              Some (u8 "小兒科")) by (vm_compute; reflexivity).
  exact (conj H (proj1 (search_label_capture _ _ _ H))).
Defined.

Lemma search_date_capture_witness :
  search_date ascii_decimal (u8 "受理 2025/1/23-5") = Some (u8 "2025/1/23") /\
  contains (u8 "2025/1/23") (u8 "受理 2025/1/23-5") = true.
Proof.
  assert (H : search_date ascii_decimal (u8 "受理 2025/1/23-5") = Some (u8 "2025/1/23"))
    by (vm_compute; reflexivity).
  exact (conj H (proj1 (search_date_capture _ _ _ H))).
Defined.
